(** * paypal-checkout, [src/setup.js]: the SDK bootstrapper

    A shallow embedding of [setup.js] and the properties of its environment
    resolver, script-tag locator, configuration builder, run-once
    initializer and unhandled-rejection reporter.

    The module mutates one process-wide [config] record and talks to
    collaborators that live in other modules (the beaver logger, post-robot's
    bridge, the helpers of [./lib]).  The embedding threads the mutable
    state explicitly and records every call to a collaborator as an [Event]
    in a trace, in call order. *)

From Stdlib Require Import String Ascii List Bool Arith ZArith Lia DecimalString.
Import ListNotations.

Local Open Scope list_scope.
Local Open Scope string_scope.

(* ===================================================================== *)
(** ** JavaScript values and the string primitives the module uses *)
(* ===================================================================== *)

Module Js.

(** A Flow type [?T]: [undefined], [null] or a [T]. *)
Inductive maybe (A : Type) : Type :=
| Undefined
| Null
| Just (a : A).
Arguments Undefined {A}.
Arguments Null {A}.
Arguments Just {A} a.

(** What a property read or an object literal can hold here. [VInherited]
    is a member found on the prototype chain (a built-in function or
    object, such as [constructor]); it is always truthy. *)
Inductive value : Type :=
| VUndefined
| VStr (s : string)
| VNum (n : Z)
| VInherited (name : string).

Definition nonEmpty (s : string) : bool :=
  match s with
  | EmptyString => false
  | String _ _ => true
  end.

(** ToBoolean. *)
Definition truthy (v : value) : bool :=
  match v with
  | VUndefined => false
  | VStr s => nonEmpty s
  | VNum n => negb (Z.eqb n 0)
  | VInherited _ => true
  end.

Definition truthyStr (m : maybe string) : bool :=
  match m with
  | Just s => nonEmpty s
  | _ => false
  end.

Definition truthyBool (m : maybe bool) : bool :=
  match m with
  | Just b => b
  | _ => false
  end.

(** Strict equality [===] on the values above. *)
Definition strictEq (a b : value) : bool :=
  match a, b with
  | VUndefined, VUndefined => true
  | VStr x, VStr y => String.eqb x y
  | VNum x, VNum y => Z.eqb x y
  | VInherited x, VInherited y => String.eqb x y
  | _, _ => false
  end.

(** *** Objects used as tables

    [own] lists the own enumerable properties in [Object.keys] order;
    [inherited] names the properties reachable through the prototype
    (for an object literal these are the members of [Object.prototype],
    for a dictionary made by [Object.create(null)] there are none). *)
Record object : Type := {
  own : list (string * value);
  inherited : list string
}.

Fixpoint assoc (k : string) (l : list (string * value)) : option value :=
  match l with
  | [] => None
  | (k', v) :: l' => if String.eqb k' k then Some v else assoc k l'
  end.

(** [Object.keys(o)] *)
Definition keys (o : object) : list string := map fst (own o).

(** [o[k]] *)
Definition get (o : object) (k : string) : value :=
  match assoc k (own o) with
  | Some v => v
  | None =>
      if existsb (String.eqb k) (inherited o) then VInherited k
      else VUndefined
  end.

(** One [[k]: v] entry of an object literal: a later entry with the same
    computed key replaces the value and keeps the position. *)
Fixpoint put (k : string) (v : value) (l : list (string * value))
  : list (string * value) :=
  match l with
  | [] => [(k, v)]
  | (k', v') :: l' =>
      if String.eqb k' k then (k', v) :: l' else (k', v') :: put k v l'
  end.

(** The names every object literal inherits from [Object.prototype]. *)
Definition Object_prototype : list string :=
  [ "constructor"; "hasOwnProperty"; "isPrototypeOf";
    "propertyIsEnumerable"; "toLocaleString"; "toString"; "valueOf";
    "__proto__"; "__defineGetter__"; "__defineSetter__";
    "__lookupGetter__"; "__lookupSetter__" ].

Definition literal (props : list (string * value)) : object :=
  {| own := fold_left (fun acc kv => put (fst kv) (snd kv) acc) props [];
     inherited := Object_prototype |}.

(** *** Strings *)

Fixpoint startsWith (p s : string) : bool :=
  match p, s with
  | EmptyString, _ => true
  | String a p', String b s' => Ascii.eqb a b && startsWith p' s'
  | String _ _, EmptyString => false
  end.

Fixpoint drop (n : nat) (s : string) : string :=
  match n, s with
  | O, _ => s
  | S n', String _ s' => drop n' s'
  | S _, EmptyString => EmptyString
  end.

(** [s.replace(/^https?:/, '')] *)
Definition stripProtocol (s : string) : string :=
  if startsWith "https:" s then drop 6 s
  else if startsWith "http:" s then drop 5 s
  else s.

(** [s.split(c)[0]]: the characters before the first [c]. *)
Fixpoint beforeFirst (c : ascii) (s : string) : string :=
  match s with
  | EmptyString => EmptyString
  | String a s' =>
      if Ascii.eqb a c then EmptyString else String a (beforeFirst c s')
  end.

(** [s.indexOf(sub) !== -1] *)
Fixpoint includes (sub s : string) : bool :=
  startsWith sub s
  || match s with
     | EmptyString => false
     | String _ s' => includes sub s'
     end.

Definition isAlnum (c : ascii) : bool :=
  let n := nat_of_ascii c in
  (((48 <=? n) && (n <=? 57)) || ((65 <=? n) && (n <=? 90))
   || ((97 <=? n) && (n <=? 122)))%nat.

(** [s.replace(/[^0-9a-zA-Z]+/g, '_')]: every maximal run of characters
    outside [0-9a-zA-Z] becomes one underscore. [inRun] tells that the
    previous character already belongs to the run being replaced. *)
Fixpoint squashFrom (inRun : bool) (s : string) : string :=
  match s with
  | EmptyString => EmptyString
  | String c s' =>
      if isAlnum c then String c (squashFrom false s')
      else if inRun then squashFrom true s'
      else String "_" (squashFrom true s')
  end.

Definition squash (s : string) : string := squashFrom false s.

(** Decimal rendering of an integer, as a template literal prints it. *)
Definition showZ (n : Z) : string := NilZero.string_of_int (Z.to_int n).

End Js.

Import Js.

(* ===================================================================== *)
(** ** Data model *)
(* ===================================================================== *)

(** An [Error] object: what the reporter reads from it. *)
Record JsError : Type := {
  err_name : string;
  err_message : string;
  err_stack : maybe string
}.

(** [Error.prototype.toString] *)
Definition toString (e : JsError) : string :=
  match err_name e, err_message e with
  | EmptyString, m => m
  | n, EmptyString => n
  | n, m => n ++ ": " ++ m
  end.

(** [err.stack || err.toString()] *)
Definition stackOrString (e : JsError) : string :=
  match err_stack e with
  | Just s => if nonEmpty s then s else toString e
  | _ => toString e
  end.

(** The process-wide [config] record of [./config], reduced to the fields
    [setup.js] reads or writes.  The three tables and [scriptUrl],
    [version] are constants of that module and are taken as given. *)
Record Config : Type := {
  env : string;
  stage : string;
  apiStage : string;
  state : string;
  ppobjects : bool;
  logLevel : string;
  paypalUrls : object;
  postBridgeUrls : object;
  paypalDomains : object;
  scriptUrl : string;
  version : string
}.

Definition set_env (v : string) (c : Config) : Config :=
  {| env := v; stage := stage c; apiStage := apiStage c; state := state c;
     ppobjects := ppobjects c; logLevel := logLevel c;
     paypalUrls := paypalUrls c; postBridgeUrls := postBridgeUrls c;
     paypalDomains := paypalDomains c; scriptUrl := scriptUrl c;
     version := version c |}.

Definition set_stage (v : string) (c : Config) : Config :=
  {| env := env c; stage := v; apiStage := apiStage c; state := state c;
     ppobjects := ppobjects c; logLevel := logLevel c;
     paypalUrls := paypalUrls c; postBridgeUrls := postBridgeUrls c;
     paypalDomains := paypalDomains c; scriptUrl := scriptUrl c;
     version := version c |}.

Definition set_apiStage (v : string) (c : Config) : Config :=
  {| env := env c; stage := stage c; apiStage := v; state := state c;
     ppobjects := ppobjects c; logLevel := logLevel c;
     paypalUrls := paypalUrls c; postBridgeUrls := postBridgeUrls c;
     paypalDomains := paypalDomains c; scriptUrl := scriptUrl c;
     version := version c |}.

Definition set_state (v : string) (c : Config) : Config :=
  {| env := env c; stage := stage c; apiStage := apiStage c; state := v;
     ppobjects := ppobjects c; logLevel := logLevel c;
     paypalUrls := paypalUrls c; postBridgeUrls := postBridgeUrls c;
     paypalDomains := paypalDomains c; scriptUrl := scriptUrl c;
     version := version c |}.

Definition set_ppobjects (v : bool) (c : Config) : Config :=
  {| env := env c; stage := stage c; apiStage := apiStage c;
     state := state c; ppobjects := v; logLevel := logLevel c;
     paypalUrls := paypalUrls c; postBridgeUrls := postBridgeUrls c;
     paypalDomains := paypalDomains c; scriptUrl := scriptUrl c;
     version := version c |}.

(** The [ConfigOptions] type of the source; [paypalUrl] is destructured by
    [configure] and never used, so it is left out. *)
Record ConfigOptions : Type := {
  opt_env : maybe string;
  opt_stage : maybe string;
  opt_apiStage : maybe string;
  opt_state : maybe string;
  opt_ppobjects : maybe bool;
  opt_logLevel : maybe string
}.

(** [{}], the default argument of [configure] and [setup]. *)
Definition noOptions : ConfigOptions :=
  {| opt_env := Undefined; opt_stage := Undefined;
     opt_apiStage := Undefined; opt_state := Undefined;
     opt_ppobjects := Undefined; opt_logLevel := Undefined |}.

(** A script element: its [src] property (empty when there is none) and its
    attributes. *)
Record HTMLScriptElement : Type := {
  src : string;
  attributes : list (string * string)
}.

Definition hasAttribute (name : string) (el : HTMLScriptElement) : bool :=
  existsb (fun kv => String.eqb (fst kv) name) (attributes el).

(** [el.getAttribute(name)]: [null] when the attribute is absent. *)
Definition getAttribute (name : string) (el : HTMLScriptElement)
  : maybe string :=
  match find (fun kv => String.eqb (fst kv) name) (attributes el) with
  | Some kv => Just (snd kv)
  | None => Null
  end.

(** [document]: the script elements in document order and
    [document.currentScript]. *)
Record Document : Type := {
  scripts : list HTMLScriptElement;
  doc_currentScript : option HTMLScriptElement
}.

(** A console method either returns ([None]) or throws. *)
Definition ConsoleMethod : Type := list string -> option JsError.

Record Console : Type := {
  console_error : option ConsoleMethod;
  console_log : option ConsoleMethod
}.

(** The [FPTI] constants of [./config]. *)
Record FptiKeys : Type := {
  KEY_ERROR_CODE : string;
  KEY_ERROR_DESC : string;
  KEY_STATE : string;
  KEY_TRANSITION : string;
  KEY_TRANSITION_TIME : string;
  STATE_LOAD : string;
  TRANSITION_SCRIPT_LOAD : string
}.

(** Everything the module reads from its surroundings and never writes:
    the page, the answers of the collaborators it consults, and the
    constants of [./config]. Load times are whole milliseconds. *)
Record Host : Type := {
  location_protocol : string;
  location_host : string;
  document : Document;
  console : option Console;
  isEligible : bool;
  isPayPalDomain : bool;
  force_bridge : bool;            (* getDomainSetting('force_bridge') *)
  bridge : bool;                  (* post-robot exports a bridge *)
  flushFailure : option JsError;  (* $logger.flush() rejects with it *)
  stringifyError : JsError -> string;
  stringifyErrorMessage : JsError -> string;
  objectToString : JsError -> string;  (* ({}).toString.call(err) *)
  getResourceLoadTime : string -> option Z;
  captureStack : string -> maybe string;  (* the stack of a new Error *)
  FPTI : FptiKeys
}.

Inductive Level : Type := Debug | Info | Warn | Error.

Inductive ConsoleChannel : Type := ConsoleError | ConsoleLog.

(** Calls into collaborators, in the order the module makes them. *)
Inductive Event : Type :=
| Log (lvl : Level) (name : string) (payload : list (string * value))
| Track (payload : list (string * value))
| Flush
| SetLogLevel (lvl : string)
| CheckForCommonErrors
| CreatePptmScript
| InitLogger
| OpenBridge (url domain : value)
| ConsoleWrite (ch : ConsoleChannel) (args : list string)
| OnPossiblyUnhandledException.

(** A pending [setTimeout(() => { throw e; }, delay)]. *)
Record Timer : Type := {
  timer_throws : JsError;
  timer_delay : nat
}.

(** The mutable state: [config], the trace and the timer queue. *)
Record World : Type := {
  config : Config;
  trace : list Event;
  timers : list Timer
}.

(* ===================================================================== *)
(** ** State and exceptions *)
(* ===================================================================== *)

Inductive Outcome (A : Type) : Type :=
| Returns (a : A)
| Throws (e : JsError).
Arguments Returns {A} a.
Arguments Throws {A} e.

(** A computation over a state [S] that returns or throws; the state
    written before a throw stays written. *)
Definition Eff (S A : Type) : Type := S -> Outcome A * S.

Definition ret {S A} (a : A) : Eff S A := fun s => (Returns a, s).

Definition bind {S A B} (m : Eff S A) (k : A -> Eff S B) : Eff S B :=
  fun s =>
    match m s with
    | (Returns a, s') => k a s'
    | (Throws e, s') => (Throws e, s')
    end.

Definition throw {S A} (e : JsError) : Eff S A := fun s => (Throws e, s).

Declare Scope eff_scope.
Delimit Scope eff_scope with eff.
Notation "x <- m ;; k" := (bind m (fun x => k))
  (at level 100, m at next level, right associativity) : eff_scope.
Notation "m ;; k" := (bind m (fun _ => k))
  (at level 100, right associativity) : eff_scope.
Local Open Scope eff_scope.

Definition when {S} (b : bool) (m : Eff S unit) : Eff S unit :=
  if b then m else ret tt.

Definition emit (e : Event) : Eff World unit :=
  fun w => (Returns tt,
            {| config := config w; trace := (trace w ++ [e])%list;
               timers := timers w |}).

Definition getConfig : Eff World Config := fun w => (Returns (config w), w).

Definition modifyConfig (f : Config -> Config) : Eff World unit :=
  fun w => (Returns tt,
            {| config := f (config w); trace := trace w;
               timers := timers w |}).

(** [setTimeout(() => { throw e; }, delay)] *)
Definition setTimeout (e : JsError) (delay : nat) : Eff World unit :=
  fun w => (Returns tt,
            {| config := config w; trace := trace w;
               timers := (timers w ++ [ {| timer_throws := e;
                                           timer_delay := delay |} ])%list |}).

(** One later turn of the event loop: the oldest pending timer fires and
    its error reaches the host uncaught. *)
Definition fireTimer (w : World) : option (JsError * World) :=
  match timers w with
  | [] => None
  | t :: rest =>
      Some (timer_throws t,
            {| config := config w; trace := trace w; timers := rest |})
  end.

(* ===================================================================== *)
(** ** [once], from [./lib] *)
(* ===================================================================== *)

(** Modelled from the spec: the helper [once] of [./lib], which is not part
    of the sources at hand.  The wrapped function has two states, not-run
    and run; the first invocation sets the guard and then runs the body,
    every later invocation is a no-op.  The guard is a variable of the
    closure, out of the body's reach: the wrapped function works on the
    pair of the guard and the body's own state. *)
Definition once {S : Type} (body : Eff S unit) : Eff (bool * S) unit :=
  fun '(called, s) =>
    if called then (Returns tt, (true, s))
    else
      let '(r, s') := body s in
      (r, (true, s')).

(** The state of the module: the guard of [init] and the world. *)
Definition Runtime : Type := (bool * World)%type.

(** A world computation run next to the guard. *)
Definition lift {A} (m : Eff World A) : Eff Runtime A :=
  fun '(called, w) => let '(r, w') := m w in (r, (called, w')).

Fixpoint repeat_call {S} (n : nat) (m : Eff S unit) : Eff S unit :=
  match n with
  | O => ret tt
  | S n' => m ;; repeat_call n' m
  end.

(* ===================================================================== *)
(** ** The module *)
(* ===================================================================== *)

Section Setup.

Variable host : Host.

(** *** Environment resolver (source lines 13-29) *)

Fixpoint domainToEnv_from (urls : object) (domain : string)
         (envs : list string) : maybe string :=
  match envs with
  | [] => Undefined
  | e :: rest =>
      if strictEq (get urls e) (VStr domain) then Just e
      else domainToEnv_from urls domain rest
  end.

Definition domainToEnv (c : Config) (domain : string) : maybe string :=
  domainToEnv_from (paypalUrls c) domain (keys (paypalUrls c)).

Definition setDomainEnv (domain : string) : Eff World unit :=
  c <- getConfig ;;
  match domainToEnv c domain with
  | Just currentDomainEnv =>
      when (nonEmpty currentDomainEnv
            && negb (String.eqb currentDomainEnv "test"))
           (modifyConfig (set_env currentDomainEnv))
  | _ => ret tt
  end.

(** *** Unhandled-rejection reporter (source lines 31-58) *)

Definition afterConsoleWrite (r : option JsError) : Eff World unit :=
  match r with
  | None => ret tt
  | Some err3 => setTimeout err3 1
  end.

(** The [catch] callback of [$logger.flush()]. *)
Definition flushCatch (err2 : JsError) : Eff World unit :=
  match console host with
  | None => ret tt
  | Some c =>
      let args := ["Error flushing:"; stackOrString err2] in
      match console_error c with
      | Some write =>
          emit (ConsoleWrite ConsoleError args) ;;
          afterConsoleWrite (write args)
      | None =>
          match console_log c with
          | Some write =>
              emit (ConsoleWrite ConsoleLog args) ;;
              afterConsoleWrite (write args)
          | None => ret tt
          end
      end
  end.

(** The handler given to [ZalgoPromise.onPossiblyUnhandledException],
    followed by the reaction to the flush promise. *)
Definition onPossiblyUnhandledException (err : JsError) : Eff World unit :=
  emit (Log Error "unhandled_error"
          (put "errtype" (VStr (objectToString host err))
             (put "stack" (VStr (stringifyError host err)) []))) ;;
  emit (Track
          (put (KEY_ERROR_DESC (FPTI host))
               (VStr (stringifyErrorMessage host err))
             (put (KEY_ERROR_CODE (FPTI host))
                  (VStr "checkoutjs_error") []))) ;;
  emit Flush ;;
  match flushFailure host with
  | None => ret tt
  | Some err2 => flushCatch err2
  end.

(** *** Script-tag locator (source lines 61-78) *)

Definition matchesScriptUrl (c : Config) (script : HTMLScriptElement)
  : bool :=
  nonEmpty (src script)
  && String.eqb (beforeFirst "?" (stripProtocol (src script)))
                (scriptUrl c).

Definition matchesLegacyName (script : HTMLScriptElement) : bool :=
  nonEmpty (src script) && includes "paypal.checkout.v4.js" (src script).

Fixpoint findScript (c : Config) (l : list HTMLScriptElement)
  : option HTMLScriptElement :=
  match l with
  | [] => None
  | script :: rest =>
      if matchesScriptUrl c script
         || hasAttribute "data-paypal-checkout" script
      then Some script
      else if matchesLegacyName script then Some script
      else findScript c rest
  end.

Definition notRecognized (cs : HTMLScriptElement) : Event :=
  Log Debug "current_script_not_recognized" [("src", VStr (src cs))].

Definition logNotRecognized : Eff World unit :=
  match doc_currentScript (document host) with
  | Some cs => emit (notRecognized cs)
  | None => ret tt
  end.

Definition getCurrentScript : Eff World (option HTMLScriptElement) :=
  c <- getConfig ;;
  match findScript c (scripts (document host)) with
  | Some script => ret (Some script)
  | None => logNotRecognized ;; ret None
  end.

(** [window.location.protocol.split(':')[0]] *)
Definition currentProtocol : string :=
  beforeFirst ":" (location_protocol host).

(** *** Configuration builder (source lines 93-128) *)

Definition invalidEnv (e : string) : JsError :=
  let msg := "Invalid env: " ++ e in
  {| err_name := "Error"; err_message := msg;
     err_stack := captureStack host msg |}.

Definition setLogLevel (lvl : string) : Eff World unit :=
  emit (SetLogLevel lvl).

(** [if (v) { ... } else { ... }] on an optional string. *)
Definition ifTruthyElse (v : maybe string) (body : string -> Eff World unit)
           (otherwise : Eff World unit) : Eff World unit :=
  match v with
  | Just s => if nonEmpty s then body s else otherwise
  | _ => otherwise
  end.

Definition ifTruthy (v : maybe string) (body : string -> Eff World unit)
  : Eff World unit :=
  ifTruthyElse v body (ret tt).

Definition configure (o : ConfigOptions) : Eff World unit :=
  ifTruthy (opt_env o) (fun env =>
    c <- getConfig ;;
    when (negb (truthy (get (paypalUrls c) env))) (throw (invalidEnv env)) ;;
    modifyConfig (set_env env)) ;;
  ifTruthy (opt_stage o) (fun stage => modifyConfig (set_stage stage)) ;;
  ifTruthy (opt_apiStage o) (fun apiStage =>
    modifyConfig (set_apiStage apiStage)) ;;
  ifTruthy (opt_state o) (fun state => modifyConfig (set_state state)) ;;
  when (truthyBool (opt_ppobjects o)) (modifyConfig (set_ppobjects true)) ;;
  ifTruthyElse (opt_logLevel o) setLogLevel
    (c <- getConfig ;; setLogLevel (logLevel c)).

(** *** Run-once initializer (source lines 130-156) *)

Definition initBody : Eff World unit :=
  when (negb (isEligible host)) (emit (Log Warn "ineligible" [])) ;;
  emit CheckForCommonErrors ;;
  when (negb (isPayPalDomain host)) (emit CreatePptmScript) ;;
  emit InitLogger ;;
  c <- getConfig ;;
  when (force_bridge host && bridge host && negb (isPayPalDomain host))
       (emit (OpenBridge (get (postBridgeUrls c) (env c))
                         (get (paypalDomains c) (env c)))) ;;
  emit (Log Info ("setup_" ++ env c) []) ;;
  emit (Log Debug ("current_protocol_" ++ currentProtocol) []).

Definition init : Eff Runtime unit := once initBody.

Definition setup (options : ConfigOptions) : Eff Runtime unit :=
  lift (configure options) ;;
  init.

(** *** Load-time sequence (source lines 29, 31, 80 and 158-202) *)

Definition loadTimeValue (t : option Z) : value :=
  match t with
  | Some n => VNum n
  | None => VUndefined
  end.

Definition scriptLoadEvent (t : option (option Z)) : Event :=
  let base :=
    put (KEY_TRANSITION (FPTI host)) (VStr (TRANSITION_SCRIPT_LOAD (FPTI host)))
      (put (KEY_STATE (FPTI host)) (VStr (STATE_LOAD (FPTI host))) []) in
  match t with
  | Some loadTime =>
      Track (put (KEY_TRANSITION_TIME (FPTI host)) (loadTimeValue loadTime)
                 base)
  | None => Track base
  end.

Definition withCurrentScript (currentScript : HTMLScriptElement)
  : Eff Runtime unit :=
  setup {| opt_env := getAttribute "data-env" currentScript;
           opt_stage := getAttribute "data-stage" currentScript;
           opt_apiStage := getAttribute "data-api-stage" currentScript;
           opt_state := getAttribute "data-state" currentScript;
           opt_logLevel := getAttribute "data-log-level" currentScript;
           opt_ppobjects := Just true |} ;;
  let scriptProtocol := beforeFirst ":" (src currentScript) in
  let loadTime := getResourceLoadTime host (src currentScript) in
  lift
    (emit (Log Debug ("current_script_protocol_" ++ scriptProtocol) []) ;;
     emit (Log Debug ("current_script_protocol_"
                      ++ (if String.eqb currentProtocol scriptProtocol
                          then "match" else "mismatch")) []) ;;
     c <- getConfig ;;
     emit (Log Debug ("current_script_version_" ++ squash (version c))
               []) ;;
     match loadTime with
     | Some t =>
         when (negb (Z.eqb t 0) && negb (isPayPalDomain host))
           (emit (Log Debug "current_script_time" [("loadTime", VNum t)]) ;;
            emit (Log Debug ("current_script_time_" ++ showZ (t / 1000))
                      []))
     | None => ret tt
     end ;;
     emit (scriptLoadEvent (Some loadTime))).

Definition withoutCurrentScript : Eff Runtime unit :=
  lift
    (emit (scriptLoadEvent None) ;;
     emit (Log Debug "no_current_script" []) ;;
     c <- getConfig ;;
     emit (Log Debug ("no_current_script_version_" ++ squash (version c))
               []) ;;
     logNotRecognized) ;;
  setup noOptions.

(** The evaluation of the module, top to bottom. *)
Definition bootstrap : Eff Runtime unit :=
  lift (setDomainEnv (location_protocol host ++ "//" ++ location_host host)) ;;
  lift (emit OnPossiblyUnhandledException) ;;
  currentScript <- lift getCurrentScript ;;
  match currentScript with
  | Some script => withCurrentScript script
  | None => withoutCurrentScript
  end.

End Setup.

(* ===================================================================== *)
(** ** Vocabulary of the specification *)
(* ===================================================================== *)

(** [v || old] on an optional string. *)
Definition orElse (v : maybe string) (old : string) : string :=
  match v with
  | Just s => if nonEmpty s then s else old
  | _ => old
  end.

(** A falsy optional string: [undefined], [null] or the empty string. *)
Definition falsy (v : maybe string) : Prop :=
  v = Undefined \/ v = Null \/ v = Just "".

(** The configuration after every truthy option has overwritten its
    field. *)
Definition configured (o : ConfigOptions) (c : Config) : Config :=
  {| env := orElse (opt_env o) (env c);
     stage := orElse (opt_stage o) (stage c);
     apiStage := orElse (opt_apiStage o) (apiStage c);
     state := orElse (opt_state o) (state c);
     ppobjects := truthyBool (opt_ppobjects o) || ppobjects c;
     logLevel := logLevel c;
     paypalUrls := paypalUrls c;
     postBridgeUrls := postBridgeUrls c;
     paypalDomains := paypalDomains c;
     scriptUrl := scriptUrl c;
     version := version c |}.

(** The environment override [configure] refuses, if any. *)
Definition rejectedEnv (o : ConfigOptions) (c : Config) : option string :=
  match opt_env o with
  | Just e =>
      if nonEmpty e && negb (truthy (get (paypalUrls c) e)) then Some e
      else None
  | _ => None
  end.

Definition withConfig (c : Config) (w : World) : World :=
  {| config := c; trace := trace w; timers := timers w |}.

Definition withEvents (es : list Event) (w : World) : World :=
  {| config := config w; trace := (trace w ++ es)%list; timers := timers w |}.

(** The side-effecting steps of the initializer, in the order the
    specification lists them: (a) eligibility warning, (b) common-error
    check, (c) pptm script when the page is not first-party, (d) logger
    initialization, (e) forced bridge, (f) info and debug telemetry. *)
Definition initSteps (host : Host) (c : Config) : list Event :=
  ((if isEligible host then [] else [Log Warn "ineligible" []])
   ++ [CheckForCommonErrors]
   ++ (if isPayPalDomain host then [] else [CreatePptmScript])
   ++ [InitLogger]
   ++ (if force_bridge host && bridge host && negb (isPayPalDomain host)
       then [OpenBridge (get (postBridgeUrls c) (env c))
                        (get (paypalDomains c) (env c))]
       else [])
   ++ [Log Info ("setup_" ++ env c) [];
       Log Debug ("current_protocol_" ++ currentProtocol host) []])%list.

(** ** Vocabulary of the environment resolver *)

(** [e] is the first environment, in [Object.keys] order, whose domain in
    the table is [domain]. *)
Definition firstMatch (urls : object) (domain e : string) : Prop :=
  exists before after,
    keys urls = (before ++ e :: after)%list
    /\ get urls e = VStr domain
    /\ forall k, In k before -> get urls k <> VStr domain.

(** No environment of the table has the domain [domain]. *)
Definition noMatch (urls : object) (domain : string) : Prop :=
  forall k, In k (keys urls) -> get urls k <> VStr domain.

(** ** Vocabulary of the script-tag locator *)

(** The source URL with its protocol removed and its query string
    dropped. *)
Definition strippedSrc (script : HTMLScriptElement) : string :=
  beforeFirst "?" (stripProtocol (src script)).

(** First heuristic: the element has a source URL which, stripped, is the
    configured SDK script URL. *)
Definition urlHeuristic (c : Config) (script : HTMLScriptElement) : Prop :=
  src script <> "" /\ strippedSrc script = scriptUrl c.

(** Second heuristic: the element carries the marker attribute. *)
Definition markerHeuristic (script : HTMLScriptElement) : Prop :=
  exists v, In ("data-paypal-checkout", v) (attributes script).

(** Third heuristic: the source URL contains the legacy file name. *)
Definition legacyHeuristic (script : HTMLScriptElement) : Prop :=
  exists a b, src script = a ++ "paypal.checkout.v4.js" ++ b.

Definition recognized (c : Config) (script : HTMLScriptElement) : Prop :=
  urlHeuristic c script \/ markerHeuristic script \/ legacyHeuristic script.

(** The two tests of the loop body of [getCurrentScript], taken together. *)
Definition recognizes (c : Config) (script : HTMLScriptElement) : bool :=
  (matchesScriptUrl c script || hasAttribute "data-paypal-checkout" script)
  || matchesLegacyName script.

(** [c] occurs in [s]. *)
Fixpoint occurs (c : ascii) (s : string) : bool :=
  match s with
  | EmptyString => false
  | String a s' => Ascii.eqb a c || occurs c s'
  end.

(** ** Vocabulary of the telemetry *)

Definition count (p : Event -> bool) (t : list Event) : nat :=
  length (filter p t).

(** The not-recognized diagnostic of the script-tag locator. *)
Definition isNotRecognizedLog (e : Event) : bool :=
  match e with
  | Log Debug name _ => String.eqb name "current_script_not_recognized"
  | _ => false
  end.

Definition isErrorLog (e : Event) : bool :=
  match e with
  | Log Error _ _ => true
  | _ => false
  end.

Definition isTrack (e : Event) : bool :=
  match e with
  | Track _ => true
  | _ => false
  end.

Definition isFlush (e : Event) : bool :=
  match e with
  | Flush => true
  | _ => false
  end.

Definition isConsoleWrite (e : Event) : bool :=
  match e with
  | ConsoleWrite _ _ => true
  | _ => false
  end.

(** The console method the flush fallback writes with: [console.error], or
    [console.log] when there is no [console.error]. *)
Definition fallbackWriter (c : Console) : option ConsoleMethod :=
  match console_error c with
  | Some write => Some write
  | None => console_log c
  end.

(** The not-recognized diagnostics one site emits: one when
    [document.currentScript] is set, none otherwise. *)
Definition perSite (doc : Document) : nat :=
  match doc_currentScript doc with
  | Some _ => 1
  | None => 0
  end.

(* ===================================================================== *)
(** ** Sample pages *)
(* ===================================================================== *)

Module Sample.

Definition urls : object :=
  literal [ ("local", VStr "http://localhost.paypal.com:8000");
            ("sandbox", VStr "https://www.sandbox.paypal.com");
            ("production", VStr "https://www.paypal.com");
            ("test", VStr "https://merchant.example") ].

Definition cfg : Config :=
  {| env := "production"; stage := "msmaster"; apiStage := "msmaster";
     state := "checkoutjs"; ppobjects := true; logLevel := "warn";
     paypalUrls := urls; postBridgeUrls := urls; paypalDomains := urls;
     scriptUrl := "//www.paypalobjects.com/api/checkout.js";
     version := "4.0.75" |}.

Definition world : World := {| config := cfg; trace := []; timers := [] |}.

Definition flushError : JsError :=
  {| err_name := "Error"; err_message := "request failed";
     err_stack := Undefined |}.

Definition consoleBroken : JsError :=
  {| err_name := "TypeError"; err_message := "Illegal invocation";
     err_stack := Undefined |}.

Definition checkoutScript : HTMLScriptElement :=
  {| src := "https://www.paypalobjects.com/api/checkout.js?v=4";
     attributes := [("data-env", "sandbox")] |}.

Definition otherScript : HTMLScriptElement :=
  {| src := "https://merchant.example/app.js"; attributes := [] |}.

Definition fpti : FptiKeys :=
  {| KEY_ERROR_CODE := "ext_error_code"; KEY_ERROR_DESC := "ext_error_desc";
     KEY_STATE := "state_name"; KEY_TRANSITION := "transition_name";
     KEY_TRANSITION_TIME := "transition_time";
     STATE_LOAD := "checkoutjs_load";
     TRANSITION_SCRIPT_LOAD := "process_script_load" |}.

(** A merchant page whose console refuses the write and whose logger
    cannot flush. *)
Definition page (doc : Document) : Host :=
  {| location_protocol := "https:";
     location_host := "merchant.example";
     document := doc;
     console := Some {| console_error := Some (fun _ => Some consoleBroken);
                        console_log := None |};
     isEligible := true; isPayPalDomain := false;
     force_bridge := false; bridge := true;
     flushFailure := Some flushError;
     stringifyError := stackOrString;
     stringifyErrorMessage := err_message;
     objectToString := fun _ => "[object Error]";
     getResourceLoadTime := fun _ => Some 2500%Z;
     captureStack := fun _ => Undefined;
     FPTI := fpti |}.

Definition merchantPage : Host :=
  page {| scripts := [otherScript; checkoutScript];
          doc_currentScript := Some checkoutScript |}.

(** A page on which no script element is recognized. *)
Definition unrecognizedPage : Host :=
  page {| scripts := [otherScript]; doc_currentScript := Some otherScript |}.

Definition options (e : maybe string) : ConfigOptions :=
  {| opt_env := e; opt_stage := Undefined; opt_apiStage := Undefined;
     opt_state := Undefined; opt_ppobjects := Undefined;
     opt_logLevel := Undefined |}.

End Sample.

Module SampleTestFirst.

(** A table in which the test environment comes first and shares its
    domain with production. *)
Definition urls : object :=
  literal [ ("test", VStr "https://www.paypal.com");
            ("production", VStr "https://www.paypal.com") ].

Definition world : World :=
  {| config :=
       {| env := "sandbox"; stage := "msmaster"; apiStage := "msmaster";
          state := "checkoutjs"; ppobjects := false; logLevel := "warn";
          paypalUrls := urls; postBridgeUrls := urls;
          paypalDomains := urls;
          scriptUrl := "//www.paypalobjects.com/api/checkout.js";
          version := "4.0.75" |};
     trace := []; timers := [] |}.

End SampleTestFirst.

(** ** Vocabulary of the further properties *)

(** The active environment resolves in the table of known environments:
    [config.paypalUrls[config.env]] is truthy. *)
Definition validEnv (c : Config) : Prop :=
  truthy (get (paypalUrls c) (env c)) = true.

(** No two environments of the table share a domain. *)
Definition distinctDomains (urls : object) : Prop :=
  forall k k', In k (keys urls) -> In k' (keys urls) ->
               get urls k = get urls k' -> k = k'.

(** The options the load-time sequence reads from the attributes of the
    script element it found (source lines 160-167). *)
Definition scriptOptions (script : HTMLScriptElement) : ConfigOptions :=
  {| opt_env := getAttribute "data-env" script;
     opt_stage := getAttribute "data-stage" script;
     opt_apiStage := getAttribute "data-api-stage" script;
     opt_state := getAttribute "data-state" script;
     opt_logLevel := getAttribute "data-log-level" script;
     opt_ppobjects := Just true |}.

(** What the console write of the flush fallback throws, if the flush
    fails, a console with a usable method exists and the write throws. *)
Definition consoleFailure (host : Host) : option JsError :=
  match flushFailure host, console host with
  | Some flushErr, Some c =>
      match fallbackWriter c with
      | Some write => write ["Error flushing:"; stackOrString flushErr]
      | None => None
      end
  | _, _ => None
  end.

(** The three logger calls of the unhandled-rejection handler. *)
Definition reportEvents (host : Host) (err : JsError) : list Event :=
  [ Log Error "unhandled_error"
        [ ("stack", VStr (stringifyError host err));
          ("errtype", VStr (objectToString host err)) ];
    Track (put (KEY_ERROR_DESC (FPTI host))
               (VStr (stringifyErrorMessage host err))
               [ (KEY_ERROR_CODE (FPTI host), VStr "checkoutjs_error") ]);
    Flush ].

Definition isPptmOrBridge (e : Event) : bool :=
  match e with
  | CreatePptmScript => true
  | OpenBridge _ _ => true
  | _ => false
  end.

Definition isOpenBridge (e : Event) : bool :=
  match e with
  | OpenBridge _ _ => true
  | _ => false
  end.

Definition isCreatePptmScript (e : Event) : bool :=
  match e with
  | CreatePptmScript => true
  | _ => false
  end.

(** Every character of [s] satisfies [p]. *)
Fixpoint allChars (p : ascii -> bool) (s : string) : bool :=
  match s with
  | EmptyString => true
  | String a s' => p a && allChars p s'
  end.

Definition isUnderscore (c : ascii) : bool := Ascii.eqb c "_".

Definition isLogNameChar (c : ascii) : bool := isAlnum c || isUnderscore c.

(** The origin the module resolves at load time (source line 29). *)
Definition pageOrigin (host : Host) : string :=
  location_protocol host ++ "//" ++ location_host host.

(** The telemetry that follows [setup] when a script element was found
    (source lines 169-186): protocol, protocol match, version, load time
    when there is one off a first-party page, and the load event. *)
Definition scriptTelemetry (host : Host) (script : HTMLScriptElement)
           (c : Config) : list Event :=
  let scriptProtocol := beforeFirst ":" (src script) in
  let loadTime := getResourceLoadTime host (src script) in
  ([ Log Debug ("current_script_protocol_" ++ scriptProtocol) [];
     Log Debug ("current_script_protocol_"
                ++ (if String.eqb (currentProtocol host) scriptProtocol
                    then "match" else "mismatch")) [];
     Log Debug ("current_script_version_" ++ squash (version c)) [] ]
   ++ match loadTime with
      | Some t =>
          if negb (Z.eqb t 0) && negb (isPayPalDomain host)
          then [ Log Debug "current_script_time" [("loadTime", VNum t)];
                 Log Debug ("current_script_time_" ++ showZ (t / 1000)) [] ]
          else []
      | None => []
      end
   ++ [scriptLoadEvent host (Some loadTime)])%list.

(** The telemetry of the branch taken when no script element was found
    (source lines 189-199). *)
Definition noScriptTelemetry (host : Host) (c : Config) : list Event :=
  ([ scriptLoadEvent host None;
     Log Debug "no_current_script" [];
     Log Debug ("no_current_script_version_" ++ squash (version c)) [] ]
   ++ match doc_currentScript (document host) with
      | Some cs => [notRecognized cs]
      | None => []
      end)%list.

(** A first-party page. *)
Definition firstPartyPage : Host :=
  {| location_protocol := "https:";
     location_host := "www.paypal.com";
     document := {| scripts := [Sample.checkoutScript];
                    doc_currentScript := Some Sample.checkoutScript |};
     console := None;
     isEligible := true; isPayPalDomain := true;
     force_bridge := true; bridge := true;
     flushFailure := None;
     stringifyError := stackOrString;
     stringifyErrorMessage := err_message;
     objectToString := fun _ => "[object Error]";
     getResourceLoadTime := fun _ => Some 1200%Z;
     captureStack := fun _ => Undefined;
     FPTI := Sample.fpti |}.

(** A page whose script tag asks for an environment that does not exist. *)
Definition misconfiguredPage : Host :=
  Sample.page
    {| scripts := [ {| src := "https://www.paypalobjects.com/api/checkout.js";
                       attributes := [("data-env", "bogus")] |} ];
       doc_currentScript := None |}.

(* ===================================================================== *)
(** * Properties *)
(* ===================================================================== *)

(* ===================================================================== *)
(** ** Configuration builder *)
(* ===================================================================== *)

Lemma configure_run (host : Host) (o : ConfigOptions) (w : World) :
  configure host o w =
  match rejectedEnv o (config w) with
  | Some e => (Throws (invalidEnv host e), w)
  | None =>
      (Returns tt,
       withEvents [SetLogLevel (orElse (opt_logLevel o) (logLevel (config w)))]
         (withConfig (configured o (config w)) w))
  end.
Proof.
  destruct w as [c t tm]; destruct c; destruct o as [e s a st p l].
  unfold configure, rejectedEnv, configured, withEvents, withConfig.
  destruct e as [| |[|e0 e]];
    cbv [ifTruthy ifTruthyElse bind when getConfig modifyConfig throw ret
         setLogLevel emit nonEmpty andb negb config paypalUrls opt_env];
    try (destruct (truthy (get paypalUrls0 (String e0 e)));
         [|reflexivity]);
    (destruct s as [| |[|s0 s]]; destruct a as [| |[|a0 a]];
     destruct st as [| |[|st0 st]]; destruct p as [| |[|]];
     destruct l as [| |[|l0 l]]; reflexivity).
Qed.

Lemma assoc_not_key (k : string) (l : list (string * value)) :
  ~ In k (map fst l) -> assoc k l = None.
Proof.
  induction l as [|[k' v] l IH]; simpl; intros Hk; [reflexivity|].
  destruct (String.eqb_spec k' k) as [->|_].
  - exfalso; apply Hk; now left.
  - apply IH; intros Hin; apply Hk; now right.
Qed.

Lemma existsb_eqb_not_in (k : string) (l : list string) :
  ~ In k l -> existsb (String.eqb k) l = false.
Proof.
  induction l as [|x l IH]; simpl; intros Hk; [reflexivity|].
  destruct (String.eqb_spec k x) as [->|_].
  - exfalso; apply Hk; now left.
  - apply IH; intros Hin; apply Hk; now right.
Qed.

(** A name that is neither an own key nor inherited reads as
    [undefined]. *)
Lemma get_unknown (o : object) (k : string) :
  ~ In k (keys o) -> ~ In k (inherited o) -> get o k = VUndefined.
Proof.
  intros Hown Hinh; unfold get.
  rewrite (assoc_not_key _ _ Hown), (existsb_eqb_not_in _ _ Hinh).
  reflexivity.
Qed.

Lemma nonEmpty_true (s : string) : s <> "" -> nonEmpty s = true.
Proof. destruct s; [congruence | reflexivity]. Qed.

Lemma falsy_truthyStr (v : maybe string) : falsy v <-> truthyStr v = false.
Proof.
  unfold falsy; split.
  - intros [-> | [-> | ->]]; reflexivity.
  - destruct v as [| |[|a s]]; simpl; auto; discriminate.
Qed.

Lemma falsy_orElse (v : maybe string) (old : string) :
  falsy v -> orElse v old = old.
Proof. intros [-> | [-> | ->]]; reflexivity. Qed.

Lemma falsy_not_rejected (o : ConfigOptions) (c : Config) :
  falsy (opt_env o) -> rejectedEnv o c = None.
Proof. unfold rejectedEnv; intros [-> | [-> | ->]]; reflexivity. Qed.

(** C2, as amended.  An environment override that is a non-empty string,
    not an own key of [config.paypalUrls] and not a name the table inherits
    from its prototype makes [configure] raise [Error("Invalid env: ...")]
    and leaves [config.env] as it was. *)
Theorem configure_unknown_env_raises
        (host : Host) (o : ConfigOptions) (w : World) (e : string) :
  opt_env o = Just e ->
  e <> "" ->
  ~ In e (keys (paypalUrls (config w))) ->
  ~ In e (inherited (paypalUrls (config w))) ->
  exists w',
    configure host o w = (Throws (invalidEnv host e), w')
    /\ env (config w') = env (config w).
Proof.
  intros He Hne Hown Hinh.
  exists w; split; [|reflexivity].
  rewrite configure_run; unfold rejectedEnv.
  rewrite He, (nonEmpty_true _ Hne), (get_unknown _ _ Hown Hinh).
  reflexivity.
Qed.

Lemma configure_unknown_env_raises_witness :
  exists w',
    configure Sample.merchantPage (Sample.options (Just "bogus")) Sample.world
    = (Throws (invalidEnv Sample.merchantPage "bogus"), w')
    /\ env (config w') = "production".
Proof.
  apply (configure_unknown_env_raises Sample.merchantPage
           (Sample.options (Just "bogus")) Sample.world "bogus").
  - reflexivity.
  - discriminate.
  - simpl; intros H; repeat (destruct H as [H|H]; [discriminate|]); exact H.
  - simpl; intros H; repeat (destruct H as [H|H]; [discriminate|]); exact H.
Defined.

(** C2 as stated fails: an empty-string override (a script tag carrying
    [data-env=""]) is present and is no key of the table, yet [configure]
    returns normally. *)
Lemma configure_empty_env_accepted :
  opt_env (Sample.options (Just "")) = Just ""
  /\ ~ In "" (keys (paypalUrls (config Sample.world)))
  /\ configure Sample.merchantPage (Sample.options (Just "")) Sample.world
     = (Returns tt, withEvents [SetLogLevel "warn"] Sample.world).
Proof.
  split; [reflexivity|split; [|reflexivity]].
  simpl; intros H; repeat (destruct H as [H|H]; [discriminate|]); exact H.
Qed.

(** A name inherited from [Object.prototype] passes the test
    [config.paypalUrls[env]] although it is no key of the table. *)
Example configure_inherited_name_accepted :
  ~ In "constructor" (keys (paypalUrls (config Sample.world)))
  /\ exists w',
       configure Sample.merchantPage (Sample.options (Just "constructor"))
                 Sample.world = (Returns tt, w')
       /\ env (config w') = "constructor".
Proof.
  split.
  - simpl; intros H; repeat (destruct H as [H|H]; [discriminate|]); exact H.
  - eexists; split; reflexivity.
Qed.

(** C9.  Whenever [configure] raises, the error is the invalid-environment
    error of the override and nothing was written: the whole configuration
    record is the one before the call and no log level was applied. *)
Theorem configure_raise_writes_nothing
        (host : Host) (o : ConfigOptions) (w w' : World) (err : JsError) :
  configure host o w = (Throws err, w') ->
  (exists e, opt_env o = Just e /\ err = invalidEnv host e)
  /\ config w' = config w
  /\ trace w' = trace w
  /\ w' = w.
Proof.
  rewrite configure_run; unfold rejectedEnv.
  destruct (opt_env o) as [| |e]; try discriminate.
  destruct (nonEmpty e && negb (truthy (get (paypalUrls (config w)) e)));
    [|discriminate].
  intros H; injection H as <- <-.
  repeat split; eauto.
Qed.

Lemma configure_raise_writes_nothing_witness :
  (exists e, opt_env (Sample.options (Just "bogus")) = Just e
             /\ invalidEnv Sample.merchantPage "bogus"
                = invalidEnv Sample.merchantPage e)
  /\ config Sample.world = config Sample.world
  /\ trace Sample.world = trace Sample.world
  /\ Sample.world = Sample.world.
Proof.
  apply (configure_raise_writes_nothing Sample.merchantPage
           (Sample.options (Just "bogus")) Sample.world Sample.world
           (invalidEnv Sample.merchantPage "bogus")).
  reflexivity.
Defined.

(** C8, as amended.  When [configure] accepts the options, every truthy
    string field (environment, stage, API stage, UI state) has replaced its
    configuration field and every falsy one has left it alone; the feature
    flag is switched on by a true option and never switched off; and
    exactly one log level has been applied, the supplied one when it is
    truthy and [config.logLevel] otherwise. *)
Theorem configure_applies_truthy_fields
        (host : Host) (o : ConfigOptions) (w w' : World) :
  configure host o w = (Returns tt, w') ->
  env (config w') = orElse (opt_env o) (env (config w))
  /\ stage (config w') = orElse (opt_stage o) (stage (config w))
  /\ apiStage (config w') = orElse (opt_apiStage o) (apiStage (config w))
  /\ state (config w') = orElse (opt_state o) (state (config w))
  /\ ppobjects (config w')
     = (truthyBool (opt_ppobjects o) || ppobjects (config w))
  /\ trace w'
     = (trace w
        ++ [SetLogLevel (orElse (opt_logLevel o) (logLevel (config w)))])%list.
Proof.
  rewrite configure_run.
  destruct (rejectedEnv o (config w)); [discriminate|].
  intros H; injection H as <-.
  repeat split.
Qed.

Lemma configure_applies_truthy_fields_witness :
  let o := {| opt_env := Just "sandbox"; opt_stage := Just "";
              opt_apiStage := Null; opt_state := Just "popup";
              opt_ppobjects := Just false; opt_logLevel := Just "debug" |} in
  let w' := withEvents [SetLogLevel "debug"]
              (withConfig (configured o Sample.cfg) Sample.world) in
  env (config w') = "sandbox"
  /\ stage (config w') = "msmaster"
  /\ apiStage (config w') = "msmaster"
  /\ state (config w') = "popup"
  /\ ppobjects (config w') = true
  /\ trace w' = [SetLogLevel "debug"].
Proof.
  intros o w'.
  apply (configure_applies_truthy_fields Sample.merchantPage o Sample.world w').
  reflexivity.
Defined.

(** C8 as stated fails: a feature flag that is present with the value
    [false] does not overwrite [config.ppobjects]. *)
Lemma configure_false_flag_not_written :
  let o := {| opt_env := Undefined; opt_stage := Undefined;
              opt_apiStage := Undefined; opt_state := Undefined;
              opt_ppobjects := Just false; opt_logLevel := Undefined |} in
  exists w',
    configure Sample.merchantPage o Sample.world = (Returns tt, w')
    /\ ppobjects (config Sample.world) = true
    /\ ppobjects (config w') = true
    /\ opt_ppobjects o = Just false.
Proof. eexists; repeat split. Qed.

(* ===================================================================== *)
(** ** Run-once initializer *)
(* ===================================================================== *)

Lemma initBody_run (host : Host) (w : World) :
  initBody host w = (Returns tt, withEvents (initSteps host (config w)) w).
Proof.
  destruct w as [c t tm].
  unfold initBody, initSteps, withEvents.
  cbv [bind when emit getConfig ret config trace timers].
  destruct (isEligible host), (isPayPalDomain host), (force_bridge host),
    (bridge host); simpl; repeat rewrite <- app_assoc; reflexivity.
Qed.

Lemma init_run (host : Host) (called : bool) (w : World) :
  init host (called, w)
  = (Returns tt,
     (true, if called then w else withEvents (initSteps host (config w)) w)).
Proof.
  unfold init, once; destruct called; [reflexivity|].
  rewrite initBody_run; reflexivity.
Qed.

Lemma setup_run (host : Host) (o : ConfigOptions) (called : bool) (w : World) :
  setup host o (called, w)
  = match configure host o w with
    | (Returns _, w') => init host (called, w')
    | (Throws e, w') => (Throws e, (called, w'))
    end.
Proof.
  unfold setup, bind, lift.
  destruct (configure host o w) as [[[]|e] w']; reflexivity.
Qed.

(** C10.  A falsy environment override ([undefined], [null] or the empty
    string) never makes [configure] or [setup] raise, and the active
    environment stays what it was; in the same way a falsy stage, API
    stage, UI state or feature flag leaves its field alone, and a falsy log
    level makes [configure] apply [config.logLevel]. *)
Theorem falsy_env_is_ignored (host : Host) (o : ConfigOptions) (rt : Runtime) :
  falsy (opt_env o) ->
  (exists w',
      configure host o (snd rt) = (Returns tt, w')
      /\ env (config w') = env (config (snd rt))
      /\ (falsy (opt_stage o) -> stage (config w') = stage (config (snd rt)))
      /\ (falsy (opt_apiStage o) ->
          apiStage (config w') = apiStage (config (snd rt)))
      /\ (falsy (opt_state o) -> state (config w') = state (config (snd rt)))
      /\ (truthyBool (opt_ppobjects o) = false ->
          ppobjects (config w') = ppobjects (config (snd rt)))
      /\ (falsy (opt_logLevel o) ->
          trace w'
          = (trace (snd rt) ++ [SetLogLevel (logLevel (config (snd rt)))])%list))
  /\ (exists rt',
         setup host o rt = (Returns tt, rt')
         /\ env (config (snd rt')) = env (config (snd rt))).
Proof.
  intros Henv; destruct rt as [called w]; simpl.
  pose proof (configure_run host o w) as Hrun.
  rewrite (falsy_not_rejected o (config w) Henv) in Hrun.
  split.
  - eexists; split; [exact Hrun|]; simpl.
    split; [apply falsy_orElse, Henv|].
    repeat split; intros H; try (now apply falsy_orElse).
    + rewrite H; reflexivity.
    + rewrite (falsy_orElse _ _ H); reflexivity.
  - rewrite setup_run, Hrun, init_run.
    eexists; split; [reflexivity|]; simpl.
    destruct called; simpl; apply falsy_orElse, Henv.
Qed.

Lemma falsy_env_is_ignored_witness :
  exists rt',
    setup Sample.merchantPage (Sample.options (Just "")) (false, Sample.world)
    = (Returns tt, rt')
    /\ env (config (snd rt')) = "production".
Proof.
  apply (proj2 (falsy_env_is_ignored Sample.merchantPage
                  (Sample.options (Just "")) (false, Sample.world)
                  (or_intror (or_intror eq_refl)))).
Defined.

(** A guarded call does nothing. *)
Lemma once_guarded {St : Type} (body : Eff St unit) (s : St) :
  once body (true, s) = (Returns tt, (true, s)).
Proof. reflexivity. Qed.

(** Whatever the body does, even when it throws, the guard is set
    afterwards. *)
Lemma once_sets_guard {St : Type} (body : Eff St unit) (rt : bool * St) :
  fst (snd (once body rt)) = true.
Proof.
  destruct rt as [[] s]; simpl; [reflexivity|].
  destruct (body s); reflexivity.
Qed.

Lemma repeat_guarded {St : Type} (body : Eff St unit) (n : nat) (s : St) :
  repeat_call n (once body) (true, s) = (Returns tt, (true, s)).
Proof.
  induction n as [|n IH]; [reflexivity|].
  simpl; unfold bind; rewrite once_guarded; exact IH.
Qed.

(** Any number of calls in sequence, at least one, is one call: for every
    body, also one that throws. *)
Lemma once_idempotent {St : Type} (body : Eff St unit) (n : nat) (rt : bool * St) :
  repeat_call (S n) (once body) rt = once body rt.
Proof.
  simpl; unfold bind.
  pose proof (once_sets_guard body rt) as Hg.
  destruct (once body rt) as [[[]|e] [g s]]; simpl in Hg; subst g.
  - apply repeat_guarded.
  - reflexivity.
Qed.

(** C1.  [N > 1] calls of [init] in sequence give the result, the trace and
    the state of a single call; started before any call, they run the
    steps of the initializer once, in order, and set the guard. *)
Theorem init_runs_once (host : Host) (n : nat) (rt : Runtime) :
  1 < n ->
  repeat_call n (init host) rt = init host rt
  /\ (fst rt = false ->
      repeat_call n (init host) rt
      = (Returns tt,
         (true, withEvents (initSteps host (config (snd rt))) (snd rt)))).
Proof.
  intros Hn; destruct n as [|n]; [lia|].
  assert (Hone : repeat_call (S n) (init host) rt = init host rt)
    by apply once_idempotent.
  split; [exact Hone|].
  rewrite Hone; destruct rt as [called w]; intros Hfresh.
  cbn [fst] in Hfresh; subst called.
  apply (init_run host false w).
Qed.

Lemma init_runs_once_witness :
  repeat_call 3 (init Sample.merchantPage) (false, Sample.world)
  = init Sample.merchantPage (false, Sample.world)
  /\ (fst (false, Sample.world) = false ->
      repeat_call 3 (init Sample.merchantPage) (false, Sample.world)
      = (Returns tt,
         (true,
          withEvents (initSteps Sample.merchantPage Sample.cfg) Sample.world))).
Proof.
  apply (init_runs_once Sample.merchantPage 3 (false, Sample.world)); lia.
Defined.

Example init_three_calls_trace :
  trace (snd (snd (repeat_call 3 (init Sample.merchantPage)
                                 (false, Sample.world))))
  = [ CheckForCommonErrors; CreatePptmScript; InitLogger;
      Log Info "setup_production" []; Log Debug "current_protocol_https" [] ].
Proof. reflexivity. Qed.

(* ===================================================================== *)
(** ** Environment resolver *)
(* ===================================================================== *)

Lemma strictEq_VStr (v : value) (d : string) :
  strictEq v (VStr d) = true <-> v = VStr d.
Proof.
  destruct v; simpl; split; try discriminate.
  - intros H; apply String.eqb_eq in H; congruence.
  - intros H; injection H as ->; apply String.eqb_refl.
Qed.

Lemma strictEq_VStr_false (v : value) (d : string) :
  v <> VStr d -> strictEq v (VStr d) = false.
Proof.
  intros H; destruct (strictEq v (VStr d)) eqn:E; [|reflexivity].
  apply strictEq_VStr in E; contradiction.
Qed.

Lemma domainToEnv_from_skip (urls : object) (domain : string)
      (before rest : list string) :
  (forall k, In k before -> get urls k <> VStr domain) ->
  domainToEnv_from urls domain (before ++ rest)
  = domainToEnv_from urls domain rest.
Proof.
  induction before as [|k before IH]; simpl; intros H; [reflexivity|].
  rewrite strictEq_VStr_false by (apply H; now left).
  apply IH; intros k' Hk'; apply H; now right.
Qed.

Lemma domainToEnv_first (c : Config) (domain e : string) :
  firstMatch (paypalUrls c) domain e -> domainToEnv c domain = Just e.
Proof.
  intros (before & after & Hkeys & Hget & Hbefore).
  unfold domainToEnv; rewrite Hkeys, domainToEnv_from_skip by exact Hbefore.
  simpl; rewrite (proj2 (strictEq_VStr _ _) Hget); reflexivity.
Qed.

Lemma domainToEnv_none (c : Config) (domain : string) :
  noMatch (paypalUrls c) domain -> domainToEnv c domain = Undefined.
Proof.
  intros H; unfold domainToEnv.
  rewrite <- (app_nil_r (keys (paypalUrls c))).
  rewrite domainToEnv_from_skip by exact H; reflexivity.
Qed.

(** C3, as amended.  Let [e] be the first environment in key order whose
    domain equals the page origin.  If [e] is neither empty nor ["test"],
    [setDomainEnv] makes it the active environment; if it is ["test"] or
    empty, or if no environment has that domain, the state is left as it
    was.  No case raises. *)
Theorem setDomainEnv_first_match (domain : string) (w : World) :
  (forall e,
      firstMatch (paypalUrls (config w)) domain e ->
      e <> "" -> e <> "test" ->
      setDomainEnv domain w = (Returns tt, withConfig (set_env e (config w)) w))
  /\ (firstMatch (paypalUrls (config w)) domain "test"
      \/ firstMatch (paypalUrls (config w)) domain ""
      \/ noMatch (paypalUrls (config w)) domain ->
      setDomainEnv domain w = (Returns tt, w)).
Proof.
  unfold setDomainEnv, bind, getConfig; split.
  - intros e Hfirst Hne Htest.
    rewrite (domainToEnv_first _ _ _ Hfirst), (nonEmpty_true _ Hne).
    destruct (String.eqb_spec e "test"); [contradiction|reflexivity].
  - intros [H | [H | H]].
    + rewrite (domainToEnv_first _ _ _ H); reflexivity.
    + rewrite (domainToEnv_first _ _ _ H); reflexivity.
    + rewrite (domainToEnv_none _ _ H); reflexivity.
Qed.

Lemma setDomainEnv_first_match_witness :
  setDomainEnv "https://www.sandbox.paypal.com" Sample.world
  = (Returns tt, withConfig (set_env "sandbox" Sample.cfg) Sample.world).
Proof.
  apply (proj1 (setDomainEnv_first_match "https://www.sandbox.paypal.com"
                  Sample.world) "sandbox").
  - exists ["local"], ["production"; "test"].
    split; [reflexivity|split; [reflexivity|]].
    intros k [<-|[]]; discriminate.
  - discriminate.
  - discriminate.
Defined.

(** C3 as stated fails: the origin is the domain of production, which is
    not the test environment, yet the active environment stays ["sandbox"],
    because ["test"] has the same domain and comes first in the table. *)
Lemma setDomainEnv_test_listed_first :
  In "production" (keys SampleTestFirst.urls)
  /\ get SampleTestFirst.urls "production" = VStr "https://www.paypal.com"
  /\ "production" <> "test"
  /\ setDomainEnv "https://www.paypal.com" SampleTestFirst.world
     = (Returns tt, SampleTestFirst.world)
  /\ env (config SampleTestFirst.world) = "sandbox".
Proof.
  repeat split; try reflexivity; try discriminate.
  simpl; auto.
Qed.

(* ===================================================================== *)
(** ** Script-tag locator *)
(* ===================================================================== *)

Lemma startsWith_spec (p s : string) :
  startsWith p s = true <-> exists b, s = p ++ b.
Proof.
  revert s; induction p as [|a p IH]; intros s; simpl.
  - split; [intros _; now exists s | reflexivity].
  - destruct s as [|c s].
    + split; [discriminate | intros [b Hb]; discriminate].
    + rewrite andb_true_iff, Ascii.eqb_eq, IH; split.
      * intros [-> [b ->]]; now exists b.
      * intros [b Hb]; injection Hb as -> ->; split; [reflexivity|now exists b].
Qed.

(** [includes] holds exactly of the strings that contain [sub]. *)
Lemma includes_spec (sub s : string) :
  includes sub s = true <-> exists a b, s = a ++ sub ++ b.
Proof.
  split.
  - induction s as [|c s IH]; simpl; rewrite orb_true_iff.
    + intros [H|H]; [|discriminate].
      apply startsWith_spec in H as [b Hb]; now exists "", b.
    + intros [H|H].
      * apply startsWith_spec in H as [b Hb]; now exists "", b.
      * destruct (IH H) as (a & b & ->); now exists (String c a), b.
  - intros (a & b & ->); induction a as [|c a IH].
    + simpl (EmptyString ++ _).
      assert (H : startsWith sub (sub ++ b) = true)
        by (apply startsWith_spec; now exists b).
      destruct (sub ++ b); simpl; rewrite H; reflexivity.
    + simpl; rewrite IH; apply orb_true_r.
Qed.

Lemma stripProtocol_https (rest : string) :
  stripProtocol ("https:" ++ rest) = rest.
Proof. reflexivity. Qed.

Lemma stripProtocol_http (rest : string) :
  stripProtocol ("http:" ++ rest) = rest.
Proof. reflexivity. Qed.

Lemma stripProtocol_other (s : string) :
  startsWith "https:" s = false -> startsWith "http:" s = false ->
  stripProtocol s = s.
Proof. unfold stripProtocol; intros -> ->; reflexivity. Qed.

(** [beforeFirst c s] is the part of [s] before its first [c]. *)
Lemma beforeFirst_spec (c : ascii) (s : string) :
  occurs c (beforeFirst c s) = false
  /\ exists rest,
       s = beforeFirst c s ++ rest
       /\ (rest = "" \/ exists r, rest = String c r).
Proof.
  induction s as [|a s [IHo (rest & IHs & IHr)]]; simpl.
  - split; [reflexivity|]; exists ""; auto.
  - destruct (Ascii.eqb_spec a c) as [->|Hac]; simpl.
    + split; [reflexivity|]; exists (String c s); eauto.
    + split.
      * rewrite IHo; destruct (Ascii.eqb_spec a c); [contradiction|reflexivity].
      * exists rest; split; [congruence|exact IHr].
Qed.

Lemma hasAttribute_spec (name : string) (el : HTMLScriptElement) :
  hasAttribute name el = true <-> exists v, In (name, v) (attributes el).
Proof.
  unfold hasAttribute; rewrite existsb_exists; split.
  - intros ([k v] & Hin & Hk); simpl in Hk.
    apply String.eqb_eq in Hk; subst k; now exists v.
  - intros [v Hin]; exists (name, v); split; [exact Hin|apply String.eqb_refl].
Qed.

Lemma matchesScriptUrl_spec (c : Config) (script : HTMLScriptElement) :
  matchesScriptUrl c script = true <-> urlHeuristic c script.
Proof.
  unfold matchesScriptUrl, urlHeuristic, strippedSrc.
  rewrite andb_true_iff, String.eqb_eq.
  destruct (src script); simpl; intuition congruence.
Qed.

(** With a non-empty SDK script URL, as [./config] has it, the guard on
    the source URL is redundant. *)
Lemma urlHeuristic_guard_redundant (c : Config) (script : HTMLScriptElement) :
  scriptUrl c <> "" ->
  (urlHeuristic c script <-> strippedSrc script = scriptUrl c).
Proof.
  unfold urlHeuristic, strippedSrc; intros Hurl; split; [tauto|].
  intros H; split; [|exact H].
  intros Hsrc; rewrite Hsrc in H; simpl in H; congruence.
Qed.

Lemma matchesLegacyName_spec (script : HTMLScriptElement) :
  matchesLegacyName script = true <-> legacyHeuristic script.
Proof.
  unfold matchesLegacyName, legacyHeuristic.
  rewrite andb_true_iff, includes_spec; split; [tauto|].
  intros (a & b & H); split; [|eauto].
  rewrite H; destruct a; reflexivity.
Qed.

Lemma recognizes_spec (c : Config) (script : HTMLScriptElement) :
  recognizes c script = true <-> recognized c script.
Proof.
  unfold recognizes, recognized.
  rewrite !orb_true_iff, matchesScriptUrl_spec, hasAttribute_spec,
    matchesLegacyName_spec.
  unfold markerHeuristic; tauto.
Qed.

Lemma recognizes_false (c : Config) (script : HTMLScriptElement) :
  ~ recognized c script -> recognizes c script = false.
Proof.
  intros H; destruct (recognizes c script) eqn:E; [|reflexivity].
  apply recognizes_spec in E; contradiction.
Qed.

(** The loop of [getCurrentScript] is a search for the first recognized
    element. *)
Lemma findScript_find (c : Config) (l : list HTMLScriptElement) :
  findScript c l = find (recognizes c) l.
Proof.
  induction l as [|script l IH]; simpl; [reflexivity|].
  unfold recognizes at 1.
  destruct (matchesScriptUrl c script || hasAttribute _ script);
    [reflexivity|].
  simpl; destruct (matchesLegacyName script); [reflexivity|exact IH].
Qed.

Lemma findScript_first (c : Config) (before after : list HTMLScriptElement)
      (script : HTMLScriptElement) :
  recognized c script ->
  (forall x, In x before -> ~ recognized c x) ->
  findScript c (before ++ script :: after) = Some script.
Proof.
  intros Hs Hbefore; rewrite findScript_find.
  induction before as [|x before IH]; simpl.
  - rewrite (proj2 (recognizes_spec c script) Hs); reflexivity.
  - rewrite recognizes_false by (apply Hbefore; now left).
    apply IH; intros y Hy; apply Hbefore; now right.
Qed.

Lemma findScript_none (c : Config) (l : list HTMLScriptElement) :
  (forall x, In x l -> ~ recognized c x) -> findScript c l = None.
Proof.
  intros H; rewrite findScript_find.
  induction l as [|x l IH]; simpl; [reflexivity|].
  rewrite recognizes_false by (apply H; now left).
  apply IH; intros y Hy; apply H; now right.
Qed.

(** C4.  [getCurrentScript] returns the first script element, in document
    order, that satisfies one of the three heuristics, and returns no value
    when no element satisfies any of them; it never throws. *)
Theorem getCurrentScript_first_recognized (host : Host) (w : World) :
  (forall before script after,
      scripts (document host) = (before ++ script :: after)%list ->
      recognized (config w) script ->
      (forall x, In x before -> ~ recognized (config w) x) ->
      fst (getCurrentScript host w) = Returns (Some script))
  /\ ((forall x, In x (scripts (document host)) -> ~ recognized (config w) x) ->
      fst (getCurrentScript host w) = Returns None)
  /\ exists r, fst (getCurrentScript host w) = Returns r.
Proof.
  unfold getCurrentScript, bind, getConfig, logNotRecognized.
  repeat split.
  - intros before script after Hdoc Hs Hbefore.
    rewrite Hdoc, (findScript_first _ _ _ _ Hs Hbefore); reflexivity.
  - intros Hnone; rewrite (findScript_none _ _ Hnone).
    destruct (doc_currentScript (document host)); reflexivity.
  - destruct (findScript (config w) (scripts (document host)));
      [eexists; reflexivity|].
    destruct (doc_currentScript (document host)); eexists; reflexivity.
Qed.

Lemma getCurrentScript_first_recognized_witness :
  fst (getCurrentScript Sample.merchantPage Sample.world)
  = Returns (Some Sample.checkoutScript).
Proof.
  apply (proj1 (getCurrentScript_first_recognized Sample.merchantPage
                  Sample.world)
               [Sample.otherScript] Sample.checkoutScript []).
  - reflexivity.
  - left; split; [discriminate|reflexivity].
  - intros x [<-|[]] H; apply recognizes_spec in H; discriminate.
Defined.

(* ===================================================================== *)
(** ** Unhandled-rejection reporter *)
(* ===================================================================== *)

Lemma count_app (p : Event -> bool) (t u : list Event) :
  count p (t ++ u) = count p t + count p u.
Proof. unfold count; rewrite filter_app, length_app; reflexivity. Qed.

(** What the [catch] callback of the flush does: at most one console write,
    and a timer when that write throws. *)
Lemma flushCatch_run (host : Host) (err2 : JsError) (w : World) :
  exists writes pending,
    flushCatch host err2 w
    = (Returns tt,
       {| config := config w; trace := (trace w ++ writes)%list;
          timers := (timers w ++ pending)%list |})
    /\ forallb isConsoleWrite writes = true.
Proof.
  unfold flushCatch.
  destruct (console host) as [c|].
  2:{ exists [], []; rewrite !app_nil_r; destruct w; split; reflexivity. }
  destruct (console_error c) as [write|].
  - cbv [bind emit afterConsoleWrite].
    destruct (write _) as [err3|].
    + eexists [_], [_]; split; reflexivity.
    + eexists [_], []; rewrite app_nil_r; split; reflexivity.
  - destruct (console_log c) as [write|].
    + cbv [bind emit afterConsoleWrite].
      destruct (write _) as [err3|].
      * eexists [_], [_]; split; reflexivity.
      * eexists [_], []; rewrite app_nil_r; split; reflexivity.
    + exists [], []; rewrite !app_nil_r; destruct w; split; reflexivity.
Qed.

Lemma count_console_writes (p : Event -> bool) (writes : list Event) :
  (forall e, isConsoleWrite e = true -> p e = false) ->
  forallb isConsoleWrite writes = true ->
  count p writes = 0.
Proof.
  intros Hp; unfold count.
  induction writes as [|e writes IH]; simpl; [reflexivity|].
  rewrite andb_true_iff; intros [He Hall].
  rewrite (Hp e He); apply IH, Hall.
Qed.

(** The handler as a whole: the three logger calls, then the fallback. *)
Lemma onPossiblyUnhandledException_run (host : Host) (err : JsError) (w : World) :
  exists writes pending,
    onPossiblyUnhandledException host err w
    = (Returns tt,
       {| config := config w;
          trace :=
            (trace w
             ++ [ Log Error "unhandled_error"
                      [ ("stack", VStr (stringifyError host err));
                        ("errtype", VStr (objectToString host err)) ];
                  Track (put (KEY_ERROR_DESC (FPTI host))
                             (VStr (stringifyErrorMessage host err))
                             [ (KEY_ERROR_CODE (FPTI host),
                                VStr "checkoutjs_error") ]);
                  Flush ]
             ++ writes)%list;
          timers := (timers w ++ pending)%list |})
    /\ forallb isConsoleWrite writes = true.
Proof.
  unfold onPossiblyUnhandledException.
  cbv [bind emit]; cbn [config trace timers put].
  destruct (flushFailure host) as [err2|].
  - match goal with
    | |- context [flushCatch host err2 ?w0] =>
        destruct (flushCatch_run host err2 w0)
          as (writes & pending & Hrun & Hall);
        rewrite Hrun
    end.
    exists writes, pending; cbn [config trace timers].
    rewrite <- !app_assoc; split; [reflexivity|exact Hall].
  - exists [], []; unfold ret; rewrite !app_nil_r, <- !app_assoc.
    split; reflexivity.
Qed.

(** C6.  For every error, the handler returns normally and adds to the
    trace exactly one error log (named [unhandled_error], carrying the
    stringified stack and the error type), then exactly one tracking event
    (carrying the error code and the error description), then exactly one
    flush; whatever follows is console output of the flush fallback. *)
Theorem reporter_emits_one_of_each (host : Host) (err : JsError) (w : World) :
  let w' := snd (onPossiblyUnhandledException host err w) in
  fst (onPossiblyUnhandledException host err w) = Returns tt
  /\ count isErrorLog (trace w') = count isErrorLog (trace w) + 1
  /\ count isTrack (trace w') = count isTrack (trace w) + 1
  /\ count isFlush (trace w') = count isFlush (trace w) + 1
  /\ exists payload writes,
       trace w'
       = (trace w
          ++ [ Log Error "unhandled_error"
                   [ ("stack", VStr (stringifyError host err));
                     ("errtype", VStr (objectToString host err)) ];
               Track payload;
               Flush ]
          ++ writes)%list
       /\ forallb isConsoleWrite writes = true
       /\ assoc (KEY_ERROR_DESC (FPTI host)) payload
          = Some (VStr (stringifyErrorMessage host err))
       /\ (KEY_ERROR_CODE (FPTI host) <> KEY_ERROR_DESC (FPTI host) ->
           assoc (KEY_ERROR_CODE (FPTI host)) payload
           = Some (VStr "checkoutjs_error")).
Proof.
  destruct (onPossiblyUnhandledException_run host err w)
    as (writes & pending & Hrun & Hall).
  rewrite Hrun; cbn [fst snd trace].
  split; [reflexivity|].
  rewrite !count_app.
  rewrite (count_console_writes isErrorLog writes),
    (count_console_writes isTrack writes),
    (count_console_writes isFlush writes)
    by (try exact Hall; intros []; simpl; congruence).
  repeat split; try (simpl; lia).
  eexists _, writes; repeat split; try exact Hall.
  - simpl.
    destruct (String.eqb_spec (KEY_ERROR_CODE (FPTI host))
                              (KEY_ERROR_DESC (FPTI host))) as [Heq|Hne]; simpl.
    + rewrite Heq, String.eqb_refl; reflexivity.
    + destruct (String.eqb_spec (KEY_ERROR_CODE (FPTI host))
                                (KEY_ERROR_DESC (FPTI host))); [contradiction|].
      rewrite String.eqb_refl; reflexivity.
  - intros Hne; simpl.
    destruct (String.eqb_spec (KEY_ERROR_CODE (FPTI host))
                              (KEY_ERROR_DESC (FPTI host))); [contradiction|].
    simpl; rewrite String.eqb_refl; reflexivity.
Qed.

(** The fallback when the console write throws: one console event, one
    timer that rethrows what the console threw. *)
Lemma flushCatch_console_throws (host : Host) (err2 consoleErr : JsError)
      (c : Console) (write : ConsoleMethod) (w : World) :
  console host = Some c ->
  fallbackWriter c = Some write ->
  write ["Error flushing:"; stackOrString err2] = Some consoleErr ->
  exists ch,
    flushCatch host err2 w
    = (Returns tt,
       {| config := config w;
          trace := (trace w
                    ++ [ConsoleWrite ch ["Error flushing:"; stackOrString err2]])%list;
          timers := (timers w
                     ++ [ {| timer_throws := consoleErr;
                             timer_delay := 1 |} ])%list |}).
Proof.
  unfold flushCatch, fallbackWriter; intros -> Hw Hthrow.
  destruct (console_error c) as [write'|].
  - injection Hw as ->; exists ConsoleError.
    cbv [bind emit afterConsoleWrite]; rewrite Hthrow; reflexivity.
  - rewrite Hw; exists ConsoleLog.
    cbv [bind emit afterConsoleWrite]; rewrite Hthrow; reflexivity.
Qed.

(** C7, as amended.  When the flush fails and the console write of the
    fallback throws, the handler itself returns normally and leaves one
    timer of delay 1 behind; on a later turn that timer throws the error
    the console write threw. *)
Theorem console_failure_rethrown_later
        (host : Host) (err flushErr consoleErr : JsError)
        (c : Console) (write : ConsoleMethod) (w : World) :
  flushFailure host = Some flushErr ->
  console host = Some c ->
  fallbackWriter c = Some write ->
  write ["Error flushing:"; stackOrString flushErr] = Some consoleErr ->
  let w' := snd (onPossiblyUnhandledException host err w) in
  fst (onPossiblyUnhandledException host err w) = Returns tt
  /\ timers w'
     = (timers w
        ++ [ {| timer_throws := consoleErr; timer_delay := 1 |} ])%list
  /\ (timers w = [] ->
      exists w'', fireTimer w' = Some (consoleErr, w'') /\ timers w'' = []).
Proof.
  intros Hflush Hconsole Hwriter Hthrow.
  unfold onPossiblyUnhandledException.
  cbv [bind emit]; cbn [config trace timers]; rewrite Hflush.
  match goal with
  | |- context [flushCatch host flushErr ?w0] =>
      destruct (flushCatch_console_throws host flushErr consoleErr c write w0
                  Hconsole Hwriter Hthrow) as [ch Hrun];
      rewrite Hrun
  end.
  cbn [fst snd config trace timers].
  repeat split.
  intros Hnone; unfold fireTimer; cbn [timers config trace]; rewrite Hnone.
  eexists; split; reflexivity.
Qed.

Lemma console_failure_rethrown_later_witness :
  let w' := snd (onPossiblyUnhandledException Sample.merchantPage
                   Sample.flushError Sample.world) in
  fst (onPossiblyUnhandledException Sample.merchantPage Sample.flushError
         Sample.world) = Returns tt
  /\ timers w'
     = (timers Sample.world
        ++ [ {| timer_throws := Sample.consoleBroken; timer_delay := 1 |} ])%list
  /\ (timers Sample.world = [] ->
      exists w'',
        fireTimer w' = Some (Sample.consoleBroken, w'') /\ timers w'' = []).
Proof.
  apply (console_failure_rethrown_later Sample.merchantPage Sample.flushError
           Sample.flushError Sample.consoleBroken
           {| console_error := Some (fun _ => Some Sample.consoleBroken);
              console_log := None |}
           (fun _ => Some Sample.consoleBroken) Sample.world);
    reflexivity.
Defined.

(** C7 as stated fails: the flush fails with one error, the console write
    throws another, and the only error raised on a later turn is the one
    of the console; the flush error is not raised again. *)
Lemma flush_error_not_rethrown :
  let w' := snd (onPossiblyUnhandledException Sample.merchantPage
                   Sample.flushError Sample.world) in
  flushFailure Sample.merchantPage = Some Sample.flushError
  /\ map timer_throws (timers w') = [Sample.consoleBroken]
  /\ (exists w'', fireTimer w' = Some (Sample.consoleBroken, w'')
                  /\ fireTimer w'' = None)
  /\ Sample.consoleBroken <> Sample.flushError.
Proof.
  repeat split; try discriminate.
  eexists; split; reflexivity.
Qed.

(* ===================================================================== *)
(** ** Load-time sequence *)
(* ===================================================================== *)

Lemma recognized_scriptUrl (c c' : Config) (script : HTMLScriptElement) :
  scriptUrl c' = scriptUrl c -> recognized c script -> recognized c' script.
Proof.
  unfold recognized, urlHeuristic; intros ->; tauto.
Qed.

(** [setDomainEnv] writes at most [config.env]. *)
Lemma setDomainEnv_run (domain : string) (w : World) :
  exists e,
    setDomainEnv domain w
    = (Returns tt, withConfig (set_env e (config w)) w).
Proof.
  unfold setDomainEnv, bind, getConfig.
  assert (Hsame : w = withConfig (set_env (env (config w)) (config w)) w)
    by (destruct w as [[] ? ?]; reflexivity).
  destruct (domainToEnv (config w) domain) as [| |e];
    try (exists (env (config w)); unfold ret; congruence).
  destruct (nonEmpty e && negb (String.eqb e "test")).
  - exists e; reflexivity.
  - exists (env (config w)); unfold when, ret; congruence.
Qed.

Lemma logNotRecognized_run (host : Host) (w : World) :
  exists es,
    logNotRecognized host w = (Returns tt, withEvents es w)
    /\ count isNotRecognizedLog es = perSite (document host).
Proof.
  unfold logNotRecognized, perSite.
  destruct (doc_currentScript (document host)) as [cs|].
  - exists [notRecognized cs]; split; reflexivity.
  - exists []; unfold ret, withEvents; rewrite app_nil_r.
    destruct w; split; reflexivity.
Qed.

Lemma getCurrentScript_unrecognized (host : Host) (w : World) :
  (forall x, In x (scripts (document host)) -> ~ recognized (config w) x) ->
  exists es,
    getCurrentScript host w = (Returns None, withEvents es w)
    /\ count isNotRecognizedLog es = perSite (document host).
Proof.
  intros Hnone; unfold getCurrentScript, bind, getConfig.
  rewrite (findScript_none _ _ Hnone).
  destruct (logNotRecognized_run host w) as (es & -> & Hes).
  exists es; split; [reflexivity|exact Hes].
Qed.

Lemma initSteps_not_recognized (host : Host) (c : Config) :
  count isNotRecognizedLog (initSteps host c) = 0.
Proof.
  unfold initSteps.
  destruct (isEligible host), (isPayPalDomain host), (force_bridge host),
    (bridge host); reflexivity.
Qed.

Lemma configured_noOptions (c : Config) : configured noOptions c = c.
Proof. destruct c; reflexivity. Qed.

(** The branch taken when no script element was recognized. *)
Lemma withoutCurrentScript_run (host : Host) (called : bool) (w : World) :
  exists es w',
    withoutCurrentScript host (called, w) = (Returns tt, (true, w'))
    /\ trace w' = (trace w ++ es)%list
    /\ count isNotRecognizedLog es = perSite (document host).
Proof.
  unfold withoutCurrentScript, bind, lift.
  cbv [bind emit getConfig]; cbn [config trace timers].
  match goal with
  | |- context [logNotRecognized host ?w0] =>
      destruct (logNotRecognized_run host w0) as (es & -> & Hes)
  end.
  rewrite setup_run, configure_run.
  cbn [rejectedEnv noOptions opt_env]; rewrite init_run.
  destruct called; eexists _, _; (split; [reflexivity|]);
    cbn [withEvents withConfig config trace timers];
    rewrite <- ?app_assoc; (split; [reflexivity|]);
    rewrite ?count_app, ?initSteps_not_recognized, Hes;
    unfold count, scriptLoadEvent; simpl; lia.
Qed.

(** C5, as amended.  On a document none of whose script elements is
    recognized, the locator returns no value and logs the not-recognized
    diagnostic once when [document.currentScript] is set and not at all
    otherwise; the load-time branch that follows logs it once more under
    the same condition, so that the whole sequence logs it twice or not at
    all. *)
Theorem bootstrap_not_recognized_logs (host : Host) (rt : Runtime) :
  (forall x, In x (scripts (document host)) ->
             ~ recognized (config (snd rt)) x) ->
  fst (getCurrentScript host (snd rt)) = Returns None
  /\ count isNotRecognizedLog (trace (snd (getCurrentScript host (snd rt))))
     = count isNotRecognizedLog (trace (snd rt)) + perSite (document host)
  /\ fst (bootstrap host rt) = Returns tt
  /\ count isNotRecognizedLog (trace (snd (snd (bootstrap host rt))))
     = count isNotRecognizedLog (trace (snd rt))
       + 2 * perSite (document host).
Proof.
  destruct rt as [called w]; cbn [snd]; intros Hnone.
  destruct (getCurrentScript_unrecognized host w Hnone) as (es & Hrun & Hes).
  rewrite Hrun; cbn [fst snd withEvents trace].
  split; [reflexivity|].
  split; [rewrite count_app, Hes; reflexivity|].
  unfold bootstrap, bind, lift.
  destruct (setDomainEnv_run (location_protocol host ++ "//" ++ location_host host) w)
    as [e ->].
  cbv [emit]; cbn [config trace timers withConfig].
  match goal with
  | |- context [getCurrentScript host ?w0] =>
      destruct (getCurrentScript_unrecognized host w0) as (es1 & -> & Hes1)
  end.
  { cbn [config]; intros x Hx Hrec; apply (Hnone x Hx).
    revert Hrec; apply recognized_scriptUrl; reflexivity. }
  match goal with
  | |- context [withoutCurrentScript host (called, ?w0)] =>
      destruct (withoutCurrentScript_run host called w0)
        as (es2 & w2 & -> & Htrace & Hes2)
  end.
  cbn [fst snd]; split; [reflexivity|].
  rewrite Htrace; cbn [withEvents trace].
  rewrite !count_app, Hes1, Hes2; unfold count; simpl; lia.
Qed.

Lemma bootstrap_not_recognized_logs_witness :
  fst (getCurrentScript Sample.unrecognizedPage Sample.world) = Returns None
  /\ count isNotRecognizedLog
       (trace (snd (getCurrentScript Sample.unrecognizedPage Sample.world)))
     = 0 + 1
  /\ fst (bootstrap Sample.unrecognizedPage (false, Sample.world)) = Returns tt
  /\ count isNotRecognizedLog
       (trace (snd (snd (bootstrap Sample.unrecognizedPage
                           (false, Sample.world)))))
     = 0 + 2 * 1.
Proof.
  apply (bootstrap_not_recognized_logs Sample.unrecognizedPage
           (false, Sample.world)).
  intros x [<-|[]] H; apply recognizes_spec in H; discriminate.
Defined.

(** C5 as stated fails: on a page whose only script element is not
    recognized and is the one being executed, the load-time sequence logs
    the not-recognized diagnostic twice, once from the locator and once
    from the branch that follows. *)
Lemma bootstrap_logs_not_recognized_twice :
  (forall x, In x (scripts (document Sample.unrecognizedPage)) ->
             ~ recognized Sample.cfg x)
  /\ filter isNotRecognizedLog
       (trace (snd (snd (bootstrap Sample.unrecognizedPage
                           (false, Sample.world)))))
     = [ Log Debug "current_script_not_recognized"
             [("src", VStr "https://merchant.example/app.js")];
         Log Debug "current_script_not_recognized"
             [("src", VStr "https://merchant.example/app.js")] ]
  /\ count isNotRecognizedLog
       (trace (snd (snd (bootstrap Sample.unrecognizedPage
                           (false, Sample.world)))))
     <> 1.
Proof.
  split; [|split; [reflexivity|discriminate]].
  intros x [<-|[]] H; apply recognizes_spec in H; discriminate.
Qed.

Example bootstrap_unrecognized_trace :
  trace (snd (snd (bootstrap Sample.unrecognizedPage (false, Sample.world))))
  = [ OnPossiblyUnhandledException;
      Log Debug "current_script_not_recognized"
          [("src", VStr "https://merchant.example/app.js")];
      Track [ ("state_name", VStr "checkoutjs_load");
              ("transition_name", VStr "process_script_load") ];
      Log Debug "no_current_script" [];
      Log Debug "no_current_script_version_4_0_75" [];
      Log Debug "current_script_not_recognized"
          [("src", VStr "https://merchant.example/app.js")];
      SetLogLevel "warn";
      CheckForCommonErrors; CreatePptmScript; InitLogger;
      Log Info "setup_production" [];
      Log Debug "current_protocol_https" [] ].
Proof. reflexivity. Qed.

Example bootstrap_recognized_trace :
  bootstrap Sample.merchantPage (false, Sample.world)
  = (Returns tt,
     (true,
      {| config := set_env "sandbox" Sample.cfg;
         trace :=
           [ OnPossiblyUnhandledException;
             SetLogLevel "warn";
             CheckForCommonErrors; CreatePptmScript; InitLogger;
             Log Info "setup_sandbox" [];
             Log Debug "current_protocol_https" [];
             Log Debug "current_script_protocol_https" [];
             Log Debug "current_script_protocol_match" [];
             Log Debug "current_script_version_4_0_75" [];
             Log Debug "current_script_time" [("loadTime", VNum 2500)];
             Log Debug "current_script_time_2" [];
             Track [ ("state_name", VStr "checkoutjs_load");
                     ("transition_name", VStr "process_script_load");
                     ("transition_time", VNum 2500) ] ];
         timers := [] |})).
Proof. reflexivity. Qed.

(* ===================================================================== *)
(** * Further properties of the module *)
(* ===================================================================== *)

(** ** Environment resolver, continued *)

Lemma domainToEnv_from_sound (urls : object) (domain : string)
      (envs : list string) :
  match domainToEnv_from urls domain envs with
  | Just e =>
      exists before after,
        envs = (before ++ e :: after)%list
        /\ get urls e = VStr domain
        /\ forall k, In k before -> get urls k <> VStr domain
  | Undefined => forall k, In k envs -> get urls k <> VStr domain
  | Null => False
  end.
Proof.
  induction envs as [|k envs IH]; simpl.
  - intros k [].
  - destruct (strictEq (get urls k) (VStr domain)) eqn:Hk.
    + apply strictEq_VStr in Hk.
      exists [], envs; split; [reflexivity|split; [exact Hk|intros ? []]].
    + assert (Hne : get urls k <> VStr domain).
      { intros H; apply strictEq_VStr in H; congruence. }
      destruct (domainToEnv_from urls domain envs) as [| |e].
      * intros k' [<-|Hk']; [exact Hne|apply IH, Hk'].
      * exact IH.
      * destruct IH as (before & after & -> & Hget & Hbefore).
        exists (k :: before), after; split; [reflexivity|split; [exact Hget|]].
        intros k' [<-|Hk']; [exact Hne|apply Hbefore, Hk'].
Qed.

(** X1.  [domainToEnv] answers with an environment exactly when that
    environment is the first key of the table whose domain is the given
    one, answers [undefined] exactly when no key has that domain, and never
    answers [null]. *)
Theorem domainToEnv_characterised (c : Config) (domain : string) :
  (forall e, domainToEnv c domain = Just e
             <-> firstMatch (paypalUrls c) domain e)
  /\ (domainToEnv c domain = Undefined <-> noMatch (paypalUrls c) domain)
  /\ domainToEnv c domain <> Null.
Proof.
  pose proof (domainToEnv_from_sound (paypalUrls c) domain
                (keys (paypalUrls c))) as Hsound.
  fold (domainToEnv c domain) in Hsound.
  repeat split.
  - intros He; rewrite He in Hsound; exact Hsound.
  - apply domainToEnv_first.
  - intros Hu; rewrite Hu in Hsound; exact Hsound.
  - apply domainToEnv_none.
  - intros Hn; rewrite Hn in Hsound; exact Hsound.
Qed.

Lemma withConfig_same_env (w : World) :
  withConfig (set_env (env (config w)) (config w)) w = w.
Proof. destruct w as [[] ? ?]; reflexivity. Qed.

Lemma setDomainEnv_result (domain : string) (w : World) :
  exists e,
    setDomainEnv domain w = (Returns tt, withConfig (set_env e (config w)) w)
    /\ (e = env (config w)
        \/ (e <> "" /\ e <> "test"
            /\ In e (keys (paypalUrls (config w)))
            /\ get (paypalUrls (config w)) e = VStr domain)).
Proof.
  unfold setDomainEnv, bind, getConfig.
  pose proof (domainToEnv_from_sound (paypalUrls (config w)) domain
                (keys (paypalUrls (config w)))) as Hsound.
  fold (domainToEnv (config w) domain) in Hsound.
  assert (Hkeep : exists e,
             (Returns tt, w) = (Returns tt, withConfig (set_env e (config w)) w)
             /\ (e = env (config w)
                 \/ (e <> "" /\ e <> "test"
                     /\ In e (keys (paypalUrls (config w)))
                     /\ get (paypalUrls (config w)) e = VStr domain))).
  { exists (env (config w)); rewrite withConfig_same_env.
    split; [reflexivity|now left]. }
  destruct (domainToEnv (config w) domain) as [| |e]; try exact Hkeep.
  destruct Hsound as (before & after & Hkeys & Hget & _).
  destruct (nonEmpty e && negb (String.eqb e "test")) eqn:Hb;
    [|exact Hkeep].
  apply andb_true_iff in Hb as [Hne Htest].
  exists e; split; [reflexivity|right].
  repeat split; try assumption.
  - intros ->; discriminate.
  - intros ->; discriminate.
  - rewrite Hkeys; apply in_or_app; right; now left.
Qed.

(** X2.  [setDomainEnv] returns normally and writes nothing but
    [config.env]; the environment it leaves is either the one it found or
    an own key of the table, non-empty and other than ["test"], whose
    domain is the given one. *)
Theorem setDomainEnv_writes_only_env (domain : string) (w : World) :
  exists e,
    setDomainEnv domain w = (Returns tt, withConfig (set_env e (config w)) w)
    /\ (e = env (config w)
        \/ (e <> "" /\ e <> "test"
            /\ In e (keys (paypalUrls (config w)))
            /\ get (paypalUrls (config w)) e = VStr domain)).
Proof. apply setDomainEnv_result. Qed.

(** X3.  Resolving the same origin twice is resolving it once. *)
Theorem setDomainEnv_idempotent (domain : string) (w : World) :
  (setDomainEnv domain ;; setDomainEnv domain) w = setDomainEnv domain w.
Proof.
  unfold bind at 1.
  unfold setDomainEnv, bind, getConfig.
  destruct (domainToEnv (config w) domain) as [| |e] eqn:He;
    unfold ret; cbn [config]; rewrite ?He; try reflexivity.
  destruct (nonEmpty e && negb (String.eqb e "test")) eqn:Hb;
    cbv [when modifyConfig ret]; cbn [config trace timers].
  - assert (Hagain : domainToEnv (set_env e (config w)) domain = Just e)
      by exact He.
    rewrite Hagain, Hb; reflexivity.
  - rewrite He, Hb; reflexivity.
Qed.

Lemma in_first_occurrence (e : string) (l : list string) :
  In e l ->
  exists before after, l = (before ++ e :: after)%list /\ ~ In e before.
Proof.
  induction l as [|k l IH]; [intros []|].
  destruct (string_dec k e) as [->|Hne].
  - intros _; exists [], l; split; [reflexivity|intros []].
  - intros [Hk|Hin]; [contradiction|].
    destruct (IH Hin) as (before & after & -> & Hnot).
    exists (k :: before), after; split; [reflexivity|].
    intros [Hk|Hk]; contradiction.
Qed.

(** X4.  When no two environments of the table share a domain, the origin
    of any environment that is neither empty nor ["test"] makes
    [setDomainEnv] activate that environment. *)
Theorem setDomainEnv_distinct_domains (domain e : string) (w : World) :
  distinctDomains (paypalUrls (config w)) ->
  In e (keys (paypalUrls (config w))) ->
  get (paypalUrls (config w)) e = VStr domain ->
  e <> "" -> e <> "test" ->
  setDomainEnv domain w = (Returns tt, withConfig (set_env e (config w)) w).
Proof.
  intros Hdistinct Hin Hget Hne Htest.
  assert (Hfirst : firstMatch (paypalUrls (config w)) domain e).
  { destruct (in_first_occurrence e _ Hin) as (before & after & Hkeys & Hnot).
    exists before, after; split; [exact Hkeys|split; [exact Hget|]].
    intros k Hk Hkd; apply Hnot.
    assert (k = e) as <-; [|exact Hk].
    apply Hdistinct; [|exact Hin|congruence].
    rewrite Hkeys; apply in_or_app; now left. }
  unfold setDomainEnv, bind, getConfig.
  rewrite (domainToEnv_first _ _ _ Hfirst), (nonEmpty_true _ Hne).
  destruct (String.eqb_spec e "test"); [contradiction|reflexivity].
Qed.

Lemma setDomainEnv_distinct_domains_witness :
  setDomainEnv "https://www.paypal.com" Sample.world
  = (Returns tt, withConfig (set_env "production" Sample.cfg) Sample.world).
Proof.
  apply (setDomainEnv_distinct_domains "https://www.paypal.com" "production"
           Sample.world).
  - intros k k' Hk Hk' Heq; simpl in Hk, Hk'.
    repeat (destruct Hk as [<-|Hk]; [|]);
      try (repeat (destruct Hk' as [<-|Hk']; [|]);
           try reflexivity; try discriminate; try contradiction);
      contradiction.
  - simpl; auto.
  - reflexivity.
  - discriminate.
  - discriminate.
Defined.

(** ** Configuration builder and [setup], continued *)

Lemma rejectedEnv_table (o : ConfigOptions) (c c' : Config) :
  paypalUrls c' = paypalUrls c -> rejectedEnv o c' = rejectedEnv o c.
Proof. unfold rejectedEnv; intros ->; reflexivity. Qed.

Lemma rejectedEnv_none_valid (o : ConfigOptions) (c : Config) :
  rejectedEnv o c = None -> validEnv c -> validEnv (configured o c).
Proof.
  unfold rejectedEnv, validEnv, configured; cbn [env paypalUrls].
  destruct (opt_env o) as [| |[|a e]]; simpl; try (intros _ H; exact H).
  destruct (truthy (get (paypalUrls c) (String a e))); simpl;
    [reflexivity|discriminate].
Qed.

(** X5.  [configure] keeps the active environment resolvable: if
    [config.paypalUrls[config.env]] is truthy before the call, it is truthy
    after it, whether the call returns or raises. *)
Theorem configure_preserves_validEnv
        (host : Host) (o : ConfigOptions) (w : World) :
  validEnv (config w) -> validEnv (config (snd (configure host o w))).
Proof.
  intros Hvalid; rewrite configure_run.
  destruct (rejectedEnv o (config w)) eqn:Hrej; [exact Hvalid|].
  apply rejectedEnv_none_valid; assumption.
Qed.

Lemma configure_preserves_validEnv_witness :
  validEnv (config (snd (configure Sample.merchantPage
                           (Sample.options (Just "sandbox")) Sample.world))).
Proof.
  apply (configure_preserves_validEnv Sample.merchantPage
           (Sample.options (Just "sandbox")) Sample.world).
  reflexivity.
Defined.

Lemma orElse_idempotent (v : maybe string) (old : string) :
  orElse v (orElse v old) = orElse v old.
Proof. destruct v as [| |[|a s]]; reflexivity. Qed.

(** X6.  Applying the same options a second time leaves the configuration
    the first application produced. *)
Theorem configure_idempotent_on_config
        (host : Host) (o : ConfigOptions) (w : World) :
  config (snd (configure host o (snd (configure host o w))))
  = config (snd (configure host o w)).
Proof.
  rewrite (configure_run host o w).
  destruct (rejectedEnv o (config w)) eqn:Hrej; cbn [snd].
  - rewrite configure_run, Hrej; reflexivity.
  - rewrite configure_run; cbn [withEvents withConfig config].
    rewrite (rejectedEnv_table o (config w) (configured o (config w)) eq_refl),
      Hrej; cbn [snd withEvents withConfig config].
    unfold configured; cbn [env stage apiStage state ppobjects logLevel
      paypalUrls postBridgeUrls paypalDomains scriptUrl version].
    rewrite !orElse_idempotent, orb_assoc, orb_diag; reflexivity.
Qed.

(** X7.  A [setup] that raises for its environment override leaves the
    run-once guard and the whole state as they were, so that a later
    [setup] with acceptable options still runs the initializer. *)
Theorem setup_failure_keeps_guard
        (host : Host) (bad good : ConfigOptions) (w : World) (e : string) :
  rejectedEnv bad (config w) = Some e ->
  rejectedEnv good (config w) = None ->
  setup host bad (false, w) = (Throws (invalidEnv host e), (false, w))
  /\ setup host good (snd (setup host bad (false, w)))
     = (Returns tt,
        (true,
         withEvents
           (SetLogLevel (orElse (opt_logLevel good) (logLevel (config w)))
            :: initSteps host (configured good (config w)))
           (withConfig (configured good (config w)) w))).
Proof.
  intros Hbad Hgood.
  assert (Hfail : setup host bad (false, w)
                  = (Throws (invalidEnv host e), (false, w)))
    by (rewrite setup_run, configure_run, Hbad; reflexivity).
  split; [exact Hfail|].
  rewrite Hfail; cbn [snd].
  rewrite setup_run, configure_run, Hgood, init_run.
  unfold withEvents, withConfig; cbn [config trace timers].
  rewrite <- app_assoc; reflexivity.
Qed.

Lemma setup_failure_keeps_guard_witness :
  setup Sample.merchantPage (Sample.options (Just "bogus"))
        (false, Sample.world)
  = (Throws (invalidEnv Sample.merchantPage "bogus"), (false, Sample.world))
  /\ setup Sample.merchantPage (Sample.options (Just "sandbox"))
           (snd (setup Sample.merchantPage (Sample.options (Just "bogus"))
                       (false, Sample.world)))
     = (Returns tt,
        (true,
         withEvents
           (SetLogLevel "warn"
            :: initSteps Sample.merchantPage
                 (configured (Sample.options (Just "sandbox")) Sample.cfg))
           (withConfig (configured (Sample.options (Just "sandbox"))
                                   Sample.cfg)
                       Sample.world))).
Proof.
  apply (setup_failure_keeps_guard Sample.merchantPage
           (Sample.options (Just "bogus")) (Sample.options (Just "sandbox"))
           Sample.world "bogus"); reflexivity.
Defined.

(** X8.  Two accepted calls of [setup] in sequence: both apply their
    options, the second on top of the first, and both apply a log level,
    but the initializer runs with the first call only; its telemetry names
    the environment of the first call. *)
Theorem setup_twice
        (host : Host) (first second : ConfigOptions) (w : World) :
  rejectedEnv first (config w) = None ->
  rejectedEnv second (config w) = None ->
  let c1 := configured first (config w) in
  let c2 := configured second c1 in
  (setup host first ;; setup host second) (false, w)
  = (Returns tt,
     (true,
      withEvents
        ([SetLogLevel (orElse (opt_logLevel first) (logLevel (config w)))]
         ++ initSteps host c1
         ++ [SetLogLevel (orElse (opt_logLevel second) (logLevel (config w)))])
        (withConfig c2 w))).
Proof.
  intros Hfirst Hsecond; cbv zeta.
  unfold bind at 1.
  rewrite setup_run, configure_run, Hfirst, init_run.
  rewrite setup_run, configure_run.
  cbn [withEvents withConfig config trace timers].
  rewrite (rejectedEnv_table second (config w)
             (configured first (config w)) eq_refl), Hsecond.
  rewrite init_run.
  unfold withEvents, withConfig; cbn [config trace timers logLevel configured].
  rewrite <- !app_assoc; reflexivity.
Qed.

Lemma setup_twice_witness :
  (setup Sample.merchantPage (Sample.options (Just "sandbox")) ;;
   setup Sample.merchantPage (Sample.options (Just "local")))
    (false, Sample.world)
  = (Returns tt,
     (true,
      {| config := set_env "local" Sample.cfg;
         trace := [ SetLogLevel "warn";
                    CheckForCommonErrors; CreatePptmScript; InitLogger;
                    Log Info "setup_sandbox" [];
                    Log Debug "current_protocol_https" [];
                    SetLogLevel "warn" ];
         timers := [] |})).
Proof.
  apply (setup_twice Sample.merchantPage (Sample.options (Just "sandbox"))
           (Sample.options (Just "local")) Sample.world); reflexivity.
Defined.

(** ** Unhandled-rejection reporter, continued *)

Lemma flushCatch_timers (host : Host) (err2 : JsError) (w : World) :
  flushFailure host = Some err2 ->
  config (snd (flushCatch host err2 w)) = config w
  /\ fst (flushCatch host err2 w) = Returns tt
  /\ timers (snd (flushCatch host err2 w))
     = (timers w
        ++ match consoleFailure host with
           | Some consoleErr =>
               [ {| timer_throws := consoleErr; timer_delay := 1 |} ]
           | None => []
           end)%list.
Proof.
  intros Hflush; unfold consoleFailure, flushCatch, fallbackWriter.
  rewrite Hflush.
  destruct (console host) as [c|];
    [|cbn; rewrite app_nil_r; auto].
  destruct (console_error c) as [write|].
  - cbv [bind emit afterConsoleWrite].
    destruct (write _); cbn; rewrite ?app_nil_r; auto.
  - destruct (console_log c) as [write|];
      [|cbn; rewrite app_nil_r; auto].
    cbv [bind emit afterConsoleWrite].
    destruct (write _); cbn; rewrite ?app_nil_r; auto.
Qed.

(** X9.  The handler never throws and never touches the configuration.  It
    leaves a timer behind exactly when the flush failed, a console method
    was available and the console write threw; the timer then carries the
    error of the console write.  In every other case the timer queue is as
    before: a flush failure that cannot be written to a console is
    dropped. *)
Theorem reporter_defers_only_console_failure
        (host : Host) (err : JsError) (w : World) :
  let w' := snd (onPossiblyUnhandledException host err w) in
  fst (onPossiblyUnhandledException host err w) = Returns tt
  /\ config w' = config w
  /\ timers w'
     = (timers w
        ++ match consoleFailure host with
           | Some consoleErr =>
               [ {| timer_throws := consoleErr; timer_delay := 1 |} ]
           | None => []
           end)%list.
Proof.
  unfold onPossiblyUnhandledException.
  cbv [bind emit]; cbn [config trace timers].
  destruct (flushFailure host) as [err2|] eqn:Hflush.
  - match goal with
    | |- context [flushCatch host err2 ?w0] =>
        destruct (flushCatch_timers host err2 w0 Hflush) as (Hc & Hr & Ht)
    end.
    cbn [config timers] in Hc, Ht; cbv zeta; auto.
  - unfold consoleFailure; rewrite Hflush; cbn; rewrite app_nil_r; auto.
Qed.

(** X10.  When the flush succeeds, or when the page has no console, the
    handler does exactly its three logger calls and nothing else: no
    console output and no timer. *)
Theorem reporter_quiet_without_console
        (host : Host) (err : JsError) (w : World) :
  flushFailure host = None \/ console host = None ->
  onPossiblyUnhandledException host err w
  = (Returns tt, withEvents (reportEvents host err) w).
Proof.
  intros Hquiet; unfold onPossiblyUnhandledException, reportEvents, withEvents.
  cbv [bind emit]; cbn [config trace timers put].
  assert (Hrest : forall w0,
             match flushFailure host with
             | Some err2 => flushCatch host err2
             | None => ret tt
             end w0 = (Returns tt, w0)).
  { intros w0; destruct Hquiet as [-> | Hconsole]; [reflexivity|].
    destruct (flushFailure host); [|reflexivity].
    unfold flushCatch; rewrite Hconsole; reflexivity. }
  rewrite Hrest, <- !app_assoc; reflexivity.
Qed.

Lemma reporter_quiet_without_console_witness :
  let host :=
    {| location_protocol := "https:"; location_host := "merchant.example";
       document := {| scripts := []; doc_currentScript := None |};
       console := None;
       isEligible := true; isPayPalDomain := false;
       force_bridge := false; bridge := false;
       flushFailure := Some Sample.flushError;
       stringifyError := stackOrString;
       stringifyErrorMessage := err_message;
       objectToString := fun _ => "[object Error]";
       getResourceLoadTime := fun _ => None;
       captureStack := fun _ => Undefined;
       FPTI := Sample.fpti |} in
  onPossiblyUnhandledException host Sample.consoleBroken Sample.world
  = (Returns tt,
     withEvents (reportEvents host Sample.consoleBroken) Sample.world).
Proof.
  intros host.
  apply (reporter_quiet_without_console host Sample.consoleBroken
           Sample.world).
  right; reflexivity.
Defined.

(** X11.  When the flush fails and the console has an [error] method, the
    fallback writes once, through [console.error] and not [console.log],
    the label and the stack of the flush error (its string form when it
    has no stack). *)
Theorem reporter_writes_to_console_error
        (host : Host) (err flushErr : JsError) (c : Console)
        (write : ConsoleMethod) (w : World) :
  flushFailure host = Some flushErr ->
  console host = Some c ->
  console_error c = Some write ->
  trace (snd (onPossiblyUnhandledException host err w))
  = (trace w
     ++ reportEvents host err
     ++ [ConsoleWrite ConsoleError
           ["Error flushing:"; stackOrString flushErr]])%list.
Proof.
  intros Hflush Hconsole Herror.
  unfold onPossiblyUnhandledException, reportEvents, flushCatch.
  cbv [bind emit]; cbn [config trace timers put].
  rewrite Hflush, Hconsole, Herror.
  cbv [bind emit afterConsoleWrite].
  destruct (write _); cbn [snd trace setTimeout ret];
    rewrite <- !app_assoc; reflexivity.
Qed.

Lemma reporter_writes_to_console_error_witness :
  trace (snd (onPossiblyUnhandledException Sample.merchantPage
                Sample.flushError Sample.world))
  = (trace Sample.world
     ++ reportEvents Sample.merchantPage Sample.flushError
     ++ [ConsoleWrite ConsoleError
           ["Error flushing:"; stackOrString Sample.flushError]])%list.
Proof.
  apply (reporter_writes_to_console_error Sample.merchantPage
           Sample.flushError Sample.flushError
           {| console_error := Some (fun _ => Some Sample.consoleBroken);
              console_log := None |}
           (fun _ => Some Sample.consoleBroken) Sample.world); reflexivity.
Defined.

(** ** Script-tag locator, continued *)

Lemma beforeFirst_absent (c : ascii) (u : string) :
  occurs c u = false -> beforeFirst c u = u.
Proof.
  induction u as [|a u IH]; simpl; [reflexivity|].
  destruct (Ascii.eqb a c); simpl; [discriminate|].
  intros H; rewrite (IH H); reflexivity.
Qed.

Lemma beforeFirst_app (c : ascii) (u q : string) :
  occurs c u = false -> beforeFirst c (u ++ String c q) = u.
Proof.
  induction u as [|a u IH]; simpl.
  - rewrite Ascii.eqb_refl; reflexivity.
  - destruct (Ascii.eqb a c); simpl; [discriminate|].
    intros H; rewrite (IH H); reflexivity.
Qed.

Lemma append_empty_r (s : string) : s ++ "" = s.
Proof. induction s as [|a s IH]; simpl; [reflexivity|now rewrite IH]. Qed.

(** X12.  A script element whose source is the configured SDK URL behind
    [http:] or [https:], with or without a query string, is found by the
    locator when it comes first, whatever follows it in the document. *)
Theorem locator_accepts_url_variants
        (c : Config) (script : HTMLScriptElement)
        (rest : list HTMLScriptElement) (proto query : string) :
  proto = "http:" \/ proto = "https:" ->
  query = "" \/ (exists q, query = String "?" q) ->
  occurs "?" (scriptUrl c) = false ->
  src script = proto ++ scriptUrl c ++ query ->
  findScript c (script :: rest) = Some script.
Proof.
  intros Hproto Hquery Hurl Hsrc.
  assert (Hstrip : stripProtocol (src script) = scriptUrl c ++ query).
  { rewrite Hsrc; destruct Hproto as [-> | ->];
      [apply stripProtocol_http | apply stripProtocol_https]. }
  assert (Hmatch : matchesScriptUrl c script = true).
  { unfold matchesScriptUrl; rewrite Hstrip.
    apply andb_true_iff; split.
    - rewrite Hsrc; destruct Hproto as [-> | ->]; reflexivity.
    - apply String.eqb_eq.
      destruct Hquery as [-> | [q ->]].
      + rewrite append_empty_r; apply beforeFirst_absent, Hurl.
      + apply beforeFirst_app, Hurl. }
  simpl; rewrite Hmatch; reflexivity.
Qed.

Lemma locator_accepts_url_variants_witness :
  findScript Sample.cfg [Sample.checkoutScript; Sample.otherScript]
  = Some Sample.checkoutScript.
Proof.
  apply (locator_accepts_url_variants Sample.cfg Sample.checkoutScript
           [Sample.otherScript] "https:" "?v=4").
  - right; reflexivity.
  - right; exists "v=4"; reflexivity.
  - reflexivity.
  - reflexivity.
Defined.

(** X13.  Whatever [getCurrentScript] returns is a script element of the
    document that satisfies one of the heuristics, and in that case the
    locator has logged nothing and changed nothing; when it returns no
    value, no element of the document satisfies any heuristic. *)
Theorem getCurrentScript_sound (host : Host) (w : World) :
  (forall script,
      fst (getCurrentScript host w) = Returns (Some script) ->
      In script (scripts (document host))
      /\ recognized (config w) script
      /\ snd (getCurrentScript host w) = w)
  /\ (fst (getCurrentScript host w) = Returns None ->
      forall x, In x (scripts (document host)) -> ~ recognized (config w) x).
Proof.
  unfold getCurrentScript, bind, getConfig.
  rewrite findScript_find.
  destruct (find (recognizes (config w)) (scripts (document host)))
    as [found|] eqn:Hfind.
  - split.
    + intros script H; injection H as <-.
      apply find_some in Hfind as [Hin Hrec].
      repeat split; [exact Hin|apply recognizes_spec, Hrec].
    + discriminate.
  - split.
    + intros script H; exfalso; revert H.
      destruct (logNotRecognized_run host w) as (es & -> & _); discriminate.
    + intros _ x Hx Hrec.
      apply recognizes_spec in Hrec.
      rewrite (find_none _ _ Hfind x Hx) in Hrec; discriminate.
Qed.

Lemma getCurrentScript_sound_witness :
  In Sample.checkoutScript (scripts (document Sample.merchantPage))
  /\ recognized (config Sample.world) Sample.checkoutScript
  /\ snd (getCurrentScript Sample.merchantPage Sample.world) = Sample.world.
Proof.
  apply (proj1 (getCurrentScript_sound Sample.merchantPage Sample.world)
               Sample.checkoutScript).
  reflexivity.
Defined.

(** ** Load-time sequence, continued *)

Lemma findScript_scriptUrl (c c' : Config) (l : list HTMLScriptElement) :
  scriptUrl c' = scriptUrl c -> findScript c' l = findScript c l.
Proof.
  intros Hurl; induction l as [|script l IH]; simpl; [reflexivity|].
  unfold matchesScriptUrl; rewrite Hurl, IH; reflexivity.
Qed.

Lemma withEvents_app (es1 es2 : list Event) (w : World) :
  withEvents es2 (withEvents es1 w) = withEvents (es1 ++ es2) w.
Proof. unfold withEvents; cbn; rewrite app_assoc; reflexivity. Qed.

Lemma withEvents_nil (w : World) : withEvents [] w = w.
Proof. destruct w; unfold withEvents; cbn; rewrite app_nil_r; reflexivity. Qed.

(** The branch taken when a script element was found. *)
Lemma withCurrentScript_run (host : Host) (script : HTMLScriptElement)
      (called : bool) (w : World) :
  withCurrentScript host script (called, w)
  = match rejectedEnv (scriptOptions script) (config w) with
    | Some e => (Throws (invalidEnv host e), (called, w))
    | None =>
        let c' := configured (scriptOptions script) (config w) in
        (Returns tt,
         (true,
          withEvents
            ([SetLogLevel (orElse (getAttribute "data-log-level" script)
                                  (logLevel (config w)))]
             ++ (if called then [] else initSteps host c')
             ++ scriptTelemetry host script c')
            (withConfig c' w)))
    end.
Proof.
  unfold withCurrentScript; fold (scriptOptions script).
  unfold bind at 1; rewrite setup_run, configure_run.
  destruct (rejectedEnv (scriptOptions script) (config w)); [reflexivity|].
  rewrite init_run; cbv zeta.
  unfold lift, scriptTelemetry.
  cbv [bind emit getConfig when ret].
  destruct (getResourceLoadTime host (src script)) as [t|];
    [destruct (negb (Z.eqb t 0) && negb (isPayPalDomain host))|];
    destruct called;
    unfold withEvents, withConfig; cbn [config trace timers opt_logLevel
                                         scriptOptions];
    repeat (rewrite <- app_assoc; cbn [app]); reflexivity.
Qed.

(** The branch taken when no script element was found. *)
Lemma withoutCurrentScript_exact (host : Host) (called : bool) (w : World) :
  withoutCurrentScript host (called, w)
  = (Returns tt,
     (true,
      withEvents
        (noScriptTelemetry host (config w)
         ++ [SetLogLevel (logLevel (config w))]
         ++ (if called then [] else initSteps host (config w)))
        w)).
Proof.
  unfold withoutCurrentScript, bind, lift, noScriptTelemetry, logNotRecognized.
  cbv [bind emit getConfig ret]; cbn [config trace timers].
  destruct (doc_currentScript (document host)) as [cs|];
    cbv [emit]; cbn [config trace timers];
    rewrite setup_run, configure_run;
    cbn [rejectedEnv noOptions opt_env]; rewrite init_run;
    destruct w as [c t tm]; destruct called;
    unfold withEvents, withConfig;
    cbn [config trace timers opt_logLevel noOptions orElse];
    rewrite configured_noOptions;
    repeat (rewrite <- app_assoc; cbn [app]); rewrite ?app_nil_r; reflexivity.
Qed.

(** The whole evaluation of the module, by cases: no script element found;
    one found whose [data-env] is refused; one found and accepted. *)
Lemma bootstrap_cases (host : Host) (called : bool) (w : World) :
  let w1 := snd (setDomainEnv (pageOrigin host) w) in
  bootstrap host (called, w)
  = match findScript (config w) (scripts (document host)) with
    | None =>
        (Returns tt,
         (true,
          withEvents
            ([OnPossiblyUnhandledException]
             ++ match doc_currentScript (document host) with
                | Some cs => [notRecognized cs]
                | None => []
                end
             ++ noScriptTelemetry host (config w1)
             ++ [SetLogLevel (logLevel (config w1))]
             ++ (if called then [] else initSteps host (config w1)))
            w1))
    | Some script =>
        match rejectedEnv (scriptOptions script) (config w) with
        | Some e =>
            (Throws (invalidEnv host e),
             (called, withEvents [OnPossiblyUnhandledException] w1))
        | None =>
            let c' := configured (scriptOptions script) (config w1) in
            (Returns tt,
             (true,
              withEvents
                ([OnPossiblyUnhandledException]
                 ++ [SetLogLevel (orElse (getAttribute "data-log-level" script)
                                         (logLevel (config w1)))]
                 ++ (if called then [] else initSteps host c')
                 ++ scriptTelemetry host script c')
                (withConfig c' w1)))
        end
    end.
Proof.
  cbv zeta; unfold bootstrap, pageOrigin.
  destruct (setDomainEnv_run
              (location_protocol host ++ "//" ++ location_host host) w)
    as [e0 Hsd].
  unfold bind at 1; unfold lift at 1; rewrite Hsd; cbn [snd].
  unfold bind at 1; unfold lift at 1; unfold emit at 1.
  unfold bind at 1; unfold lift at 1.
  unfold getCurrentScript, bind at 1, getConfig.
  cbn [config withConfig trace timers].
  rewrite (findScript_scriptUrl (config w) (set_env e0 (config w)))
    by reflexivity.
  destruct (findScript (config w) (scripts (document host))) as [script|].
  - unfold ret; rewrite withCurrentScript_run.
    cbn [config].
    rewrite (rejectedEnv_table (scriptOptions script) (config w)
               (set_env e0 (config w)) eq_refl).
    destruct (rejectedEnv (scriptOptions script) (config w)); [reflexivity|].
    cbv zeta; unfold withEvents, withConfig; cbn [config trace timers].
    rewrite <- !app_assoc; reflexivity.
  - unfold logNotRecognized.
    destruct (doc_currentScript (document host)) as [cs|] eqn:Hcs;
      cbv [bind emit ret]; cbn [config trace timers];
      rewrite withoutCurrentScript_exact;
      unfold withEvents, noScriptTelemetry; cbn [config trace timers];
      rewrite Hcs; repeat (rewrite <- app_assoc; cbn [app]); reflexivity.
Qed.

Lemma rejectedEnv_some (o : ConfigOptions) (c : Config) (e : string) :
  rejectedEnv o c = Some e <->
  opt_env o = Just e /\ e <> "" /\ truthy (get (paypalUrls c) e) = false.
Proof.
  unfold rejectedEnv; split.
  - destruct (opt_env o) as [| |[|a s]]; simpl; try discriminate.
    destruct (truthy (get (paypalUrls c) (String a s))) eqn:Ht; simpl;
      [discriminate|].
    intros H; injection H as <-; repeat split; [discriminate|exact Ht].
  - intros (-> & Hne & Ht); rewrite (nonEmpty_true _ Hne), Ht; reflexivity.
Qed.

Lemma setDomainEnv_trace (domain : string) (w : World) :
  trace (snd (setDomainEnv domain w)) = trace w
  /\ timers (snd (setDomainEnv domain w)) = timers w
  /\ paypalUrls (config (snd (setDomainEnv domain w))) = paypalUrls (config w).
Proof.
  destruct (setDomainEnv_run domain w) as [e ->]; repeat split.
Qed.

(** X14.  When the script element found carries a non-empty [data-env]
    that does not resolve in the table, the evaluation of the module raises
    the invalid-environment error: the handler registration is the only
    call made, the initializer has not run and its guard is untouched. *)
Theorem bootstrap_invalid_data_env_throws
        (host : Host) (called : bool) (w : World)
        (script : HTMLScriptElement) (e : string) :
  findScript (config w) (scripts (document host)) = Some script ->
  getAttribute "data-env" script = Just e ->
  e <> "" ->
  truthy (get (paypalUrls (config w)) e) = false ->
  fst (bootstrap host (called, w)) = Throws (invalidEnv host e)
  /\ fst (snd (bootstrap host (called, w))) = called
  /\ trace (snd (snd (bootstrap host (called, w))))
     = (trace w ++ [OnPossiblyUnhandledException])%list.
Proof.
  intros Hfind Henv Hne Hfalsy.
  assert (Hrej : rejectedEnv (scriptOptions script) (config w) = Some e)
    by (apply rejectedEnv_some; auto).
  pose proof (bootstrap_cases host called w) as Hcases; cbv zeta in Hcases.
  rewrite Hfind, Hrej in Hcases; rewrite Hcases.
  cbn [fst snd withEvents trace].
  rewrite (proj1 (setDomainEnv_trace _ w)); auto.
Qed.

Lemma bootstrap_invalid_data_env_throws_witness :
  fst (bootstrap misconfiguredPage (false, Sample.world))
  = Throws (invalidEnv misconfiguredPage "bogus")
  /\ fst (snd (bootstrap misconfiguredPage (false, Sample.world))) = false
  /\ trace (snd (snd (bootstrap misconfiguredPage (false, Sample.world))))
     = (trace Sample.world ++ [OnPossiblyUnhandledException])%list.
Proof.
  apply (bootstrap_invalid_data_env_throws misconfiguredPage false
           Sample.world
           {| src := "https://www.paypalobjects.com/api/checkout.js";
              attributes := [("data-env", "bogus")] |} "bogus").
  - reflexivity.
  - reflexivity.
  - discriminate.
  - reflexivity.
Defined.

(** X15.  The evaluation of the module raises in no other way: if it
    raises, a script element was found, its [data-env] is a non-empty
    string that does not resolve in the table, and the error is the
    invalid-environment error for it.  In particular it never raises when
    no script element is recognized. *)
Theorem bootstrap_throws_only_for_data_env
        (host : Host) (rt : Runtime) (err : JsError) :
  fst (bootstrap host rt) = Throws err ->
  exists script e,
    findScript (config (snd rt)) (scripts (document host)) = Some script
    /\ getAttribute "data-env" script = Just e
    /\ e <> ""
    /\ truthy (get (paypalUrls (config (snd rt))) e) = false
    /\ err = invalidEnv host e.
Proof.
  destruct rt as [called w]; cbn [snd].
  pose proof (bootstrap_cases host called w) as Hcases; cbv zeta in Hcases.
  rewrite Hcases.
  destruct (findScript (config w) (scripts (document host))) as [script|];
    [|discriminate].
  destruct (rejectedEnv (scriptOptions script) (config w)) as [e|] eqn:Hrej;
    [|discriminate].
  cbn [fst]; intros H; injection H as <-.
  apply rejectedEnv_some in Hrej as (Henv & Hne & Hfalsy).
  exists script, e; auto.
Qed.

Lemma bootstrap_throws_only_for_data_env_witness :
  exists script e,
    findScript (config Sample.world) (scripts (document misconfiguredPage))
    = Some script
    /\ getAttribute "data-env" script = Just e
    /\ e <> ""
    /\ truthy (get (paypalUrls (config Sample.world)) e) = false
    /\ invalidEnv misconfiguredPage "bogus" = invalidEnv misconfiguredPage e.
Proof.
  apply (bootstrap_throws_only_for_data_env misconfiguredPage
           (false, Sample.world) (invalidEnv misconfiguredPage "bogus")).
  reflexivity.
Defined.

(** X16.  When a script element is found and its options are accepted,
    the evaluation returns with the guard set, the feature flag on, and
    each configuration field taken from the script's attribute when that
    attribute is non-empty; in particular [data-env] takes precedence over
    the environment resolved from the page origin, which is used only when
    the attribute is missing or empty. *)
Theorem bootstrap_script_attributes_win
        (host : Host) (called : bool) (w : World)
        (script : HTMLScriptElement) :
  findScript (config w) (scripts (document host)) = Some script ->
  rejectedEnv (scriptOptions script) (config w) = None ->
  let resolved := config (snd (setDomainEnv (pageOrigin host) w)) in
  let final := snd (bootstrap host (called, w)) in
  fst (bootstrap host (called, w)) = Returns tt
  /\ fst final = true
  /\ ppobjects (config (snd final)) = true
  /\ env (config (snd final))
     = orElse (getAttribute "data-env" script) (env resolved)
  /\ stage (config (snd final))
     = orElse (getAttribute "data-stage" script) (stage (config w))
  /\ apiStage (config (snd final))
     = orElse (getAttribute "data-api-stage" script) (apiStage (config w))
  /\ state (config (snd final))
     = orElse (getAttribute "data-state" script) (state (config w)).
Proof.
  intros Hfind Haccept.
  pose proof (bootstrap_cases host called w) as Hcases; cbv zeta in Hcases.
  rewrite Hfind, Haccept in Hcases; cbv zeta; rewrite Hcases.
  destruct (setDomainEnv_run (pageOrigin host) w) as [e0 ->].
  repeat split.
Qed.

Lemma bootstrap_script_attributes_win_witness :
  let resolved := config (snd (setDomainEnv (pageOrigin Sample.merchantPage)
                                            Sample.world)) in
  let final := snd (bootstrap Sample.merchantPage (false, Sample.world)) in
  fst (bootstrap Sample.merchantPage (false, Sample.world)) = Returns tt
  /\ fst final = true
  /\ ppobjects (config (snd final)) = true
  /\ env (config (snd final))
     = orElse (getAttribute "data-env" Sample.checkoutScript) (env resolved)
  /\ stage (config (snd final))
     = orElse (getAttribute "data-stage" Sample.checkoutScript)
              (stage (config Sample.world))
  /\ apiStage (config (snd final))
     = orElse (getAttribute "data-api-stage" Sample.checkoutScript)
              (apiStage (config Sample.world))
  /\ state (config (snd final))
     = orElse (getAttribute "data-state" Sample.checkoutScript)
              (state (config Sample.world)).
Proof.
  apply (bootstrap_script_attributes_win Sample.merchantPage false
           Sample.world Sample.checkoutScript); reflexivity.
Defined.

Lemma initSteps_no_track_no_flush (host : Host) (c : Config) :
  count isTrack (initSteps host c) = 0 /\ count isFlush (initSteps host c) = 0.
Proof.
  unfold initSteps.
  destruct (isEligible host), (isPayPalDomain host), (force_bridge host),
    (bridge host); split; reflexivity.
Qed.

Lemma scriptTelemetry_counts (host : Host) (script : HTMLScriptElement)
      (c : Config) :
  count isTrack (scriptTelemetry host script c) = 1
  /\ count isFlush (scriptTelemetry host script c) = 0.
Proof.
  unfold scriptTelemetry, scriptLoadEvent.
  destruct (getResourceLoadTime host (src script)) as [t|];
    [destruct (negb (Z.eqb t 0) && negb (isPayPalDomain host))|];
    split; reflexivity.
Qed.

Lemma noScriptTelemetry_counts (host : Host) (c : Config) :
  count isTrack (noScriptTelemetry host c) = 1
  /\ count isFlush (noScriptTelemetry host c) = 0.
Proof.
  unfold noScriptTelemetry, scriptLoadEvent.
  destruct (doc_currentScript (document host)); split; reflexivity.
Qed.

(** X17.  An evaluation of the module that returns has sent exactly one
    tracking event, the script-load event, and one that raises has sent
    none; in neither case has it flushed the logger or scheduled a
    timer. *)
Theorem bootstrap_tracks_load_once (host : Host) (rt : Runtime) :
  let final := snd (snd (bootstrap host rt)) in
  count isTrack (trace final)
  = count isTrack (trace (snd rt))
    + match fst (bootstrap host rt) with
      | Returns _ => 1
      | Throws _ => 0
      end
  /\ count isFlush (trace final) = count isFlush (trace (snd rt))
  /\ timers final = timers (snd rt).
Proof.
  destruct rt as [called w]; cbn [snd].
  pose proof (bootstrap_cases host called w) as Hcases; cbv zeta in Hcases.
  cbv zeta; rewrite Hcases.
  destruct (setDomainEnv_trace (pageOrigin host) w) as (Htrace & Htimers & _).
  destruct (findScript (config w) (scripts (document host))) as [script|];
    [destruct (rejectedEnv (scriptOptions script) (config w))|];
    destruct called;
    cbn [fst snd withEvents withConfig trace timers config];
    rewrite Htrace, Htimers, !count_app;
    repeat match goal with
           | |- context [count _ (initSteps ?h ?c)] =>
               rewrite (proj1 (initSteps_no_track_no_flush h c)),
                 (proj2 (initSteps_no_track_no_flush h c))
           | |- context [count _ (scriptTelemetry ?h ?s ?c)] =>
               rewrite (proj1 (scriptTelemetry_counts h s c)),
                 (proj2 (scriptTelemetry_counts h s c))
           | |- context [count _ (noScriptTelemetry ?h ?c)] =>
               rewrite (proj1 (noScriptTelemetry_counts h c)),
                 (proj2 (noScriptTelemetry_counts h c))
           end;
    try destruct (doc_currentScript (document host));
    unfold count; simpl; repeat split; lia.
Qed.

Lemma pageOrigin_nonEmpty (host : Host) : nonEmpty (pageOrigin host) = true.
Proof. unfold pageOrigin; destruct (location_protocol host); reflexivity. Qed.

(** X18.  The evaluation of the module keeps the active environment
    resolvable: if [config.paypalUrls[config.env]] is truthy before, it is
    truthy afterwards, whether the evaluation returns or raises. *)
Theorem bootstrap_preserves_validEnv (host : Host) (rt : Runtime) :
  validEnv (config (snd rt)) ->
  validEnv (config (snd (snd (bootstrap host rt)))).
Proof.
  destruct rt as [called w]; cbn [snd]; intros Hvalid.
  pose proof (bootstrap_cases host called w) as Hcases; cbv zeta in Hcases.
  rewrite Hcases; clear Hcases.
  assert (Hresolved : validEnv (config (snd (setDomainEnv (pageOrigin host) w)))).
  { destruct (setDomainEnv_result (pageOrigin host) w)
      as (e0 & -> & [-> | (_ & _ & _ & Hget)]); cbn [snd withConfig config].
    - destruct w as [[] ? ?]; exact Hvalid.
    - unfold validEnv; cbn [set_env env paypalUrls]; rewrite Hget.
      apply pageOrigin_nonEmpty. }
  destruct (findScript (config w) (scripts (document host))) as [script|];
    [|exact Hresolved].
  destruct (rejectedEnv (scriptOptions script) (config w)) eqn:Hrej;
    [exact Hresolved|].
  cbn [snd withEvents withConfig config].
  apply rejectedEnv_none_valid; [|exact Hresolved].
  rewrite <- Hrej; apply rejectedEnv_table.
  apply (proj2 (proj2 (setDomainEnv_trace (pageOrigin host) w))).
Qed.

Lemma bootstrap_preserves_validEnv_witness :
  validEnv (config (snd (snd (bootstrap Sample.merchantPage
                                (false, Sample.world))))).
Proof.
  apply (bootstrap_preserves_validEnv Sample.merchantPage
           (false, Sample.world)).
  reflexivity.
Defined.

(** ** Log names and the initializer, continued *)

Lemma squashFrom_chars (inRun : bool) (s : string) :
  allChars isLogNameChar (squashFrom inRun s) = true.
Proof.
  revert inRun; induction s as [|a s IH]; intros inRun; simpl;
    [reflexivity|].
  destruct (isAlnum a) eqn:Ha.
  - simpl; unfold isLogNameChar at 1; rewrite Ha; apply IH.
  - destruct inRun; [apply IH|].
    simpl; apply IH.
Qed.

Lemma squashFrom_stable (s : string) :
  (forall inRun,
      squashFrom false (squashFrom inRun s) = squashFrom inRun s)
  /\ squashFrom true (squashFrom true s) = squashFrom true s.
Proof.
  induction s as [|a s [IHany IHrun]]; [split; reflexivity|].
  split.
  - intros inRun; simpl.
    destruct (isAlnum a) eqn:Ha.
    + simpl; rewrite Ha, IHany; reflexivity.
    + destruct inRun; [apply IHany|].
      change (String "_" (squashFrom true (squashFrom true s))
              = String "_" (squashFrom true s)).
      rewrite IHrun; reflexivity.
  - simpl; destruct (isAlnum a) eqn:Ha.
    + simpl; rewrite Ha, IHany; reflexivity.
    + exact IHrun.
Qed.

Lemma squashFrom_alnum (inRun : bool) (s : string) :
  allChars isAlnum s = true -> squashFrom inRun s = s.
Proof.
  revert inRun; induction s as [|a s IH]; intros inRun; simpl;
    [reflexivity|].
  rewrite andb_true_iff; intros [Ha Hs].
  rewrite Ha, (IH false Hs); reflexivity.
Qed.

(** X19.  The version suffix of a log name, [version.replace(/[^0-9a-zA-Z]+/g,
    '_')], consists of letters, digits and underscores only; replacing
    again changes nothing; and a version made of letters and digits is
    kept as it is. *)
Theorem squash_log_name (s : string) :
  allChars isLogNameChar (squash s) = true
  /\ squash (squash s) = squash s
  /\ (allChars isAlnum s = true -> squash s = s).
Proof.
  unfold squash; repeat split.
  - apply squashFrom_chars.
  - apply (proj1 (squashFrom_stable s)).
  - apply squashFrom_alnum.
Qed.

(** X20.  On a first-party page the initializer neither injects the pptm
    script nor opens a bridge, whatever the bridge setting says. *)
Theorem init_first_party (host : Host) (called : bool) (w : World) :
  isPayPalDomain host = true ->
  count isPptmOrBridge (trace (snd (snd (init host (called, w)))))
  = count isPptmOrBridge (trace w).
Proof.
  intros Hfirst; rewrite init_run; cbn [snd].
  destruct called; [reflexivity|].
  cbn [withEvents trace]; rewrite count_app.
  unfold initSteps; rewrite Hfirst.
  destruct (isEligible host), (force_bridge host), (bridge host);
    unfold count; simpl; lia.
Qed.

Lemma init_first_party_witness :
  count isPptmOrBridge
    (trace (snd (snd (init firstPartyPage (false, Sample.world)))))
  = count isPptmOrBridge (trace Sample.world).
Proof.
  apply (init_first_party firstPartyPage false Sample.world); reflexivity.
Defined.

(** X21.  Whenever a run of the initializer opens a bridge, it has
    injected the pptm script and initialized the logger before doing so,
    and it opens at most one. *)
Theorem init_bridge_after_pptm (host : Host) (w : World) :
  exists new,
    trace (snd (snd (init host (false, w)))) = (trace w ++ new)%list
    /\ count isOpenBridge new <= 1
    /\ forall url domain,
         In (OpenBridge url domain) new ->
         exists before after,
           new = (before ++ OpenBridge url domain :: after)%list
           /\ In CreatePptmScript before
           /\ In InitLogger before
           /\ count isOpenBridge after = 0.
Proof.
  rewrite init_run; cbn [snd withEvents trace].
  exists (initSteps host (config w)); split; [reflexivity|].
  unfold initSteps.
  destruct (isEligible host), (isPayPalDomain host), (force_bridge host),
    (bridge host); cbn [andb negb app];
    (split; [unfold count; simpl; lia|]);
    intros url domain Hin; simpl in Hin;
    repeat (destruct Hin as [Hin|Hin]; try discriminate Hin);
    try contradiction;
    injection Hin as <- <-.
  - exists [CheckForCommonErrors; CreatePptmScript; InitLogger].
    eexists; split; [reflexivity|]; simpl; auto 6.
  - exists [Log Warn "ineligible" []; CheckForCommonErrors; CreatePptmScript;
            InitLogger].
    eexists; split; [reflexivity|]; simpl; auto 7.
Qed.
